(** * server.js of ideal-type-wordcup: a shallow embedding

    The gateway forwards a prompt to the Together inference API and shapes
    the answer.  The embedding follows src/server.js:

    - JavaScript strings are sequences of UTF-16 code units;
    - JavaScript values (request bodies, provider payloads, replies) are a
      small JSON-like data type with the property-access rules the file
      relies on;
    - the regular expression of the /deepseek handler is a term of a small
      regular-expression syntax, run by a backtracking matcher that tries
      the alternatives in the order of ECMAScript (lazy and greedy stars,
      capture groups, left-most start position);
    - the remote provider is an oracle; every call made to it is recorded in
      a trace, so that "before any remote call" is a statement on the trace;
    - `throw` / `try ... catch` is an error monad over that trace.

    Console output (console.log, console.warn, console.error) is not
    modelled; the conversion of the prompt to a string by the template
    literal that [chatWithModel] logs is, since it can fault. *)

From Stdlib Require Import List NArith ZArith Bool Ascii String Lia.
Import ListNotations.

Set Implicit Arguments.
Set Warnings "-register-all".

(* ================================================================== *)
(** ** Strings *)

Module JsString.

  (** A JavaScript string: the list of its UTF-16 code units. *)
Definition t := list N.

Local Open Scope N_scope.

  (** Decoding of the UTF-8 bytes of a source literal into code units. *)
Fixpoint utf16_of_bytes (bs : list N) : t :=
    match bs with
    | [] => []
    | b0 :: t0 =>
      if b0 <? 128 then b0 :: utf16_of_bytes t0
      else
        match t0 with
        | [] => []
        | b1 :: t1 =>
          if b0 <? 224 then
            N.lor (N.shiftl (N.land b0 31) 6) (N.land b1 63)
              :: utf16_of_bytes t1
          else
            match t1 with
            | [] => []
            | b2 :: t2 =>
              if b0 <? 240 then
                N.lor (N.shiftl (N.land b0 15) 12)
                  (N.lor (N.shiftl (N.land b1 63) 6) (N.land b2 63))
                  :: utf16_of_bytes t2
              else
                match t2 with
                | [] => []
                | b3 :: t3 =>
                  let cp :=
                    N.lor (N.shiftl (N.land b0 7) 18)
                      (N.lor (N.shiftl (N.land b1 63) 12)
                         (N.lor (N.shiftl (N.land b2 63) 6) (N.land b3 63))) in
                  let v := cp - 65536 in
                  (55296 + N.shiftr v 10) :: (56320 + N.land v 1023)
                    :: utf16_of_bytes t3
                end
            end
        end
    end.

Fixpoint bytes_of_string (s : string) : list N :=
    match s with
    | EmptyString => []
    | String a s' => N_of_ascii a :: bytes_of_string s'
    end.

  (** A string literal of the source. *)
Definition lit (s : string) : t := utf16_of_bytes (bytes_of_string s).

  (** [String.prototype.startsWith]. *)
Fixpoint startsWith (p s : t) : bool :=
    match p, s with
    | [], _ => true
    | _ :: _, [] => false
    | a :: p', b :: s' => (a =? b) && startsWith p' s'
    end.

  (** [String.prototype.includes]. *)
Fixpoint includes (p s : t) : bool :=
    startsWith p s ||
    match s with
    | [] => false
    | _ :: s' => includes p s'
    end.

  (** LineTerminator of ECMAScript: LF, CR, LS, PS. *)
Definition isLineTerminator (c : N) : bool :=
    (c =? 10) || (c =? 13) || (c =? 8232) || (c =? 8233).

  (** WhiteSpace of ECMAScript: TAB, VT, FF, ZWNBSP and the code points of
      the Unicode category Zs (all of them in the basic plane). *)
Definition isWhiteSpace (c : N) : bool :=
    (c =? 9) || (c =? 11) || (c =? 12) || (c =? 65279)
    || (c =? 32) || (c =? 160) || (c =? 5760)
    || ((8192 <=? c) && (c <=? 8202))
    || (c =? 8239) || (c =? 8287) || (c =? 12288).

  (** What [trim] strips. *)
Definition isTrimmed (c : N) : bool := isWhiteSpace c || isLineTerminator c.

Fixpoint trimStart (s : t) : t :=
    match s with
    | [] => []
    | c :: s' => if isTrimmed c then trimStart s' else s
    end.

Definition trimEnd (s : t) : t := rev (trimStart (rev s)).

  (** [String.prototype.trim]. *)
Definition trim (s : t) : t := trimEnd (trimStart s).

End JsString.

Definition jsstring : Type := JsString.t.

(* ================================================================== *)
(** ** Regular expressions *)

Module RegExp.

Import JsString.
Local Open Scope N_scope.

Inductive quantifier := Greedy | Lazy.

  (** The fragment of the pattern syntax that server.js uses: literal
      characters, [.], sequence, the stars [.*] and [.*?], and capture
      groups (numbered from 1, as in the source). *)
Inductive pattern :=
  | Empty
  | Char (c : N)
  | Dot
  | Seq (p q : pattern)
  | DotStar (q : quantifier)
  | Group (n : nat) (p : pattern).

  (** A literal run of characters. *)
Fixpoint chars (s : jsstring) : pattern :=
    match s with
    | [] => Empty
    | c :: s' => Seq (Char c) (chars s')
    end.

Record flags := { dotAll : bool }.

  (** What [.] accepts: every code unit under the [s] flag, every code unit
      but the line terminators without it. *)
Definition dotAccepts (f : flags) (c : N) : bool :=
    dotAll f || negb (isLineTerminator c).

  (** The captures: the array of the groups 1, 2, ... (index 0 of the match
      array of JavaScript, the whole match, is kept apart). *)
Definition captures := list (option jsstring).

Fixpoint setCapture (n : nat) (v : jsstring) (cs : captures) : captures :=
    match n, cs with
    | _, [] => []
    | O, _ :: cs' => Some v :: cs'
    | S n', c :: cs' => c :: setCapture n' v cs'
    end.

  (** The part of [s] consumed when the rest of the input is [s']. *)
Definition consumed (s s' : jsstring) : jsstring :=
    firstn (List.length s - List.length s') s.

Section Matcher.
Variable f : flags.
Variable R : Type.

    (** A continuation receives the rest of the input and the captures. *)
Definition continuation := jsstring -> captures -> option R.

    (** [.*?]: the continuation first, one more character on failure. *)
Fixpoint lazyStar (s : jsstring) (cs : captures) (k : continuation)
      : option R :=
      match k s cs with
      | Some r => Some r
      | None =>
        match s with
        | [] => None
        | c :: s' => if dotAccepts f c then lazyStar s' cs k else None
        end
      end.

    (** [.*]: one more character first, the continuation on failure. *)
Fixpoint greedyStar (s : jsstring) (cs : captures) (k : continuation)
      : option R :=
      match s with
      | [] => k s cs
      | c :: s' =>
        if dotAccepts f c then
          match greedyStar s' cs k with
          | Some r => Some r
          | None => k s cs
          end
        else k s cs
      end.

    (** The backtracking matcher, in continuation-passing style. *)
Fixpoint run (p : pattern) (s : jsstring) (cs : captures)
             (k : continuation) : option R :=
      match p with
      | Empty => k s cs
      | Char c =>
        match s with
        | [] => None
        | x :: s' => if x =? c then k s' cs else None
        end
      | Dot =>
        match s with
        | [] => None
        | x :: s' => if dotAccepts f x then k s' cs else None
        end
      | Seq p1 p2 => run p1 s cs (fun s1 cs1 => run p2 s1 cs1 k)
      | DotStar Lazy => lazyStar s cs k
      | DotStar Greedy => greedyStar s cs k
      | Group n p1 =>
        run p1 s cs
            (fun s1 cs1 => k s1 (setCapture (pred n) (consumed s s1) cs1))
      end.
End Matcher.

Record regexp := { source : pattern; groups : nat; flag : flags }.

  (** The match array of JavaScript: element 0 and the groups. *)
Record matchArray := { whole : jsstring; group : captures }.

  (** One attempt, at the start of [s]. *)
Definition matchAt (r : regexp) (s : jsstring) : option matchArray :=
    run (flag r) (source r) s (repeat None (groups r))
        (fun s' cs => Some {| whole := consumed s s'; group := cs |}).

  (** [RegExp.prototype.exec] of a regular expression without the [g] and
      [y] flags: the first start position, from the left, that matches. *)
Fixpoint exec (r : regexp) (s : jsstring) : option matchArray :=
    match matchAt r s with
    | Some m => Some m
    | None =>
      match s with
      | [] => None
      | _ :: s' => exec r s'
      end
    end.

End RegExp.


(* ================================================================== *)
(** ** Values, faults and effects *)

Module Js.

(** JavaScript values as they reach server.js: what [JSON.parse] builds,
    and [undefined].  A number is kept as an integer (the numeric literals
    of server.js are integers; truthiness of an integer is exact).  An
    object is the list of its own properties, in insertion order; the
    request body that [express.json()] leaves in [req.body] is such an
    object, with no property when the request carries none. *)
Inductive value :=
| VUndefined
| VNull
| VBool (b : bool)
| VNumber (n : Z)
| VString (s : jsstring)
| VArray (items : list value)
| VObject (fields : list (string * value)).

Definition object := list (string * value).

(** [ToBoolean], the test of [if (!prompt)]. *)
Definition ToBoolean (v : value) : bool :=
  match v with
  | VUndefined | VNull => false
  | VBool b => b
  | VNumber n => negb (n =? 0)%Z
  | VString s => match s with [] => false | _ :: _ => true end
  | VArray _ | VObject _ => true
  end.

(** [x === "literal"], the comparison of a [switch] on string cases. *)
Definition strictEqualsString (v : value) (s : jsstring) : bool :=
  match v with
  | VString s' => if list_eq_dec N.eq_dec s' s then true else false
  | _ => false
  end.

(** Reading an own property of an object; [undefined] when absent. *)
Fixpoint lookup (k : string) (o : object) : value :=
  match o with
  | [] => VUndefined
  | (k', v) :: o' => if String.eqb k k' then v else lookup k o'
  end.

(** Whether the object has an own property of that name. *)
Definition hasOwn (k : string) (o : object) : bool :=
  existsb (fun kv => String.eqb k (fst kv)) o.

(** Whether [ToString] faults on the value.  A primitive is converted.
    An object is converted by its [toString] method and then by its
    [valueOf] method: an own property [toString] of a parsed object is
    no function and hides the inherited method, and the inherited
    [valueOf] returns the object itself, so that an object with an own
    [toString] cannot be converted; without one, the inherited method
    answers a string.  An array is converted by [join], which converts
    each element that is neither undefined nor null. *)
Fixpoint toStringFaults (v : value) : bool :=
  match v with
  | VUndefined | VNull | VBool _ | VNumber _ | VString _ => false
  | VObject fields => hasOwn "toString" fields
  | VArray items =>
    (fix any (l : list value) : bool :=
       match l with
       | [] => false
       | x :: l' => toStringFaults x || any l'
       end) items
  end.

(** Defining a property in an object literal: an existing key keeps its
    place and takes the new value, a new key goes last. *)
Fixpoint define (k : string) (v : value) (o : object) : object :=
  match o with
  | [] => [(k, v)]
  | (k', v') :: o' =>
    if String.eqb k k' then (k, v) :: o' else (k', v') :: define k v o'
  end.

(** The spread [...src] inside an object literal under construction. *)
Definition spread (src o : object) : object :=
  fold_left (fun acc kv => define (fst kv) (snd kv) acc) src o.

(** A thrown fault: an [Error] object (the faults of server.js, of the
    client library and of the engine are all [Error]s); server.js reads
    nothing of it but its [message]. *)
Record Error := { message : jsstring }.

(** A call to the remote provider, with its request body. *)
Inductive call :=
| ChatCompletionsCreate (body : value)
| ImagesCreate (body : value).

(** What the awaited promise of a call does. *)
Inductive outcome :=
| Resolves (v : value)
| Rejects (e : Error).

(** How a statement sequence completes. *)
Inductive completion (A : Type) :=
| Normal (a : A)
| Throw (e : Error).
Arguments Normal {A} a.
Arguments Throw {A} e.

(** A computation: its completion and the remote calls it made, in order. *)
Definition M (A : Type) : Type := completion A * list call.

Definition ret {A} (a : A) : M A := (Normal a, []).

Definition throw {A} (e : Error) : M A := (Throw e, []).

Definition bind {A B} (m : M A) (f : A -> M B) : M B :=
  match m with
  | (Normal a, tr) => let (c, tr') := f a in (c, tr ++ tr')
  | (Throw e, tr) => (Throw e, tr)
  end.

(** [try { m } catch (error) { h error }]. *)
Definition tryCatch {A} (m : M A) (h : Error -> M A) : M A :=
  match m with
  | (Normal a, tr) => (Normal a, tr)
  | (Throw e, tr) => let (c, tr') := h e in (c, tr ++ tr')
  end.

Definition completionOf {A} (m : M A) : completion A := fst m.
Definition callsOf {A} (m : M A) : list call := snd m.

End Js.

Declare Scope js_scope.
Delimit Scope js_scope with js.
Notation "x <- m ;; k" := (Js.bind m (fun x => k))
  (at level 61, m at next level, right associativity) : js_scope.

(* ================================================================== *)
(** ** server.js *)

Module Server.

Import Js JsString.
Local Open Scope string_scope.
Local Open Scope list_scope.
Local Open Scope js_scope.

(** [AI_MODEL], the frozen table of provider identifiers. *)
Module AI_MODEL.
Definition LLAMA : jsstring :=
  lit "meta-llama/Llama-3.3-70B-Instruct-Turbo-Free".
Definition DEEPSEEK : jsstring :=
  lit "deepseek-ai/DeepSeek-R1-Distill-Llama-70B-free".
Definition GUARD : jsstring :=
  lit "meta-llama/Meta-Llama-Guard-3-8B".
Definition FLUX : jsstring :=
  lit "black-forest-labs/FLUX.1-schnell-Free".
End AI_MODEL.

(** [IMAGE_CONFIG]. *)
Definition IMAGE_CONFIG : object :=
  [("width", VNumber 1024); ("height", VNumber 1024); ("n", VNumber 1)].

(** The messages of the faults and replies of server.js. *)
Definition MSG_NOT_IMPLEMENTED : jsstring := lit "Not implemented".
Definition MSG_PROMPT_REQUIRED : jsstring := lit "프롬프트가 필요합니다!".
Definition MSG_MODEL_CALL_FAILED : jsstring :=
  lit "AI 모델 호출 중 오류가 발생했습니다.".
Definition MSG_BAD_FORMAT : jsstring :=
  lit "AI 모델 응답 형식이 잘못되었습니다.".

(** The regular expression literal of the /deepseek handler: the tag
    <think>, group 1 (a lazy star of the dot), the tag </think>, group 2 (a
    greedy star of the dot); its only flag is s. *)
Definition THINK_OPEN : jsstring := lit "<think>".
Definition THINK_CLOSE : jsstring := lit "</think>".

Definition regex : RegExp.regexp :=
  {| RegExp.source :=
       RegExp.Seq (RegExp.chars THINK_OPEN)
         (RegExp.Seq (RegExp.Group 1 (RegExp.DotStar RegExp.Lazy))
            (RegExp.Seq (RegExp.chars THINK_CLOSE)
               (RegExp.Group 2 (RegExp.DotStar RegExp.Greedy))));
     RegExp.groups := 2;
     RegExp.flag := {| RegExp.dotAll := true |} |}.

(** An HTTP reply: [res.status(code).json(body)]; [res.json(body)] leaves
    the status at 200. *)
Record reply := { status : Z; json : value }.

(** The status classes of HTTP. *)
Definition isClientError (code : Z) : bool :=
  ((400 <=? code) && (code <? 500))%Z.
Definition isServerError (code : Z) : bool :=
  ((500 <=? code) && (code <? 600))%Z.

(** The object literal of an error reply: a single [error] property. *)
Definition errorBody (msg : jsstring) : value :=
  VObject [("error", VString msg)].

Definition res_json (body : value) : reply :=
  {| status := 200; json := body |}.
Definition res_status_json (code : Z) (body : value) : reply :=
  {| status := code; json := body |}.

Section Gateway.

(** The remote provider: what the promise of each call does. *)
Variable together : call -> outcome.
(** [process.env.CHAT_SYSTEM_MESSAGE], absent or a string. *)
Variable env_CHAT_SYSTEM_MESSAGE : option jsstring.
(** The message the engine gives the [TypeError] of a failed property
    read or method call on the given value, or (under the name
    [toString]) of its failed conversion to a string. *)
Variable typeErrorMessage : value -> string -> jsstring.

Definition TypeError (v : value) (k : string) : Error :=
  {| message := typeErrorMessage v k |}.

(** [v.k] for the property names server.js reads ([choices], [message],
    [content], [data], [url]), none of which is a built-in property of a
    string, a number, a boolean or an array. *)
Definition get (v : value) (k : string) : M value :=
  match v with
  | VUndefined | VNull => throw (TypeError v k)
  | VObject o => ret (lookup k o)
  | VBool _ | VNumber _ | VString _ | VArray _ => ret VUndefined
  end.

(** [v[0]]. *)
Definition getFirst (v : value) : M value :=
  match v with
  | VUndefined | VNull => throw (TypeError v "0")
  | VArray items => ret (nth 0 items VUndefined)
  | VString s =>
    ret (match s with [] => VUndefined | c :: _ => VString [c] end)
  | VObject o => ret (lookup "0" o)
  | VBool _ | VNumber _ => ret VUndefined
  end.

(** [await together....create(body)]: the call is recorded, then the
    promise resolves or rejects. *)
Definition await (c : call) : M value :=
  match together c with
  | Resolves v => (Normal v, [c])
  | Rejects e => (Throw e, [c])
  end.

(** [CHAT_SYSTEM_MESSAGE]: the environment's, or ([??]) the default. *)
Definition CHAT_SYSTEM_MESSAGE : jsstring :=
  match env_CHAT_SYSTEM_MESSAGE with
  | Some s => s
  | None =>
    lit "마크다운을 사용하지 말고, 한국어만 사용하고 한국어 글자만 사용해. 혹시라도 영어로 답변하면 다시 한번 한국어와 한글을 사용하는지 확인하고, 그렇지 않다면 삭제해."
  end.

(** [getStepsFromModel]. *)
Definition getStepsFromModel (model : value) : M Z :=
  if strictEqualsString model AI_MODEL.FLUX then ret 4%Z
  else throw {| message := MSG_NOT_IMPLEMENTED |}.

(** The request body of [createImage], as the object literal builds it. *)
Definition imageBody (model prompt : value) (steps : Z) : value :=
  VObject
    (define "steps" (VNumber steps)
       (spread IMAGE_CONFIG
          (define "prompt" prompt (define "model" model [])))).

(** [createImage]. *)
Definition createImage (model prompt : value) : M value :=
  steps <- getStepsFromModel model ;;
  result <- await (ImagesCreate (imageBody model prompt steps)) ;;
  data <- get result "data" ;;
  first <- getFirst data ;;
  get first "url".

(** The request body of [chatWithModel]. *)
Definition chatBody (model prompt : value) : value :=
  VObject
    [("model", model);
     ("safety_model", VString AI_MODEL.GUARD);
     ("messages",
      VArray
        [VObject [("role", VString (lit "system"));
                  ("content", VString CHAT_SYSTEM_MESSAGE)];
         VObject [("role", VString (lit "user"));
                  ("content", prompt)]])].

(** The conversion of a value by a template literal; the string itself
    goes to the console only, its fault is kept. *)
Definition ToString (v : value) : M unit :=
  if toStringFaults v then throw (TypeError v "toString") else ret tt.

(** [chatWithModel]: the test of the prompt, the template literal of the
    logged line (outside the [try]), then the call and the reading of its
    payload (inside). *)
Definition chatWithModel (model prompt : value) : M value :=
  if negb (ToBoolean prompt) then throw {| message := MSG_PROMPT_REQUIRED |}
  else
    _ <- ToString prompt ;;
    tryCatch
      (result <- await (ChatCompletionsCreate (chatBody model prompt)) ;;
       choices <- get result "choices" ;;
       first <- getFirst choices ;;
       msg <- get first "message" ;;
       get msg "content")
      (fun _ => throw {| message := MSG_MODEL_CALL_FAILED |}).

(** The [catch] clause shared by the three handlers:
    [res.status(500).json({ error: error.message })]. *)
Definition replyError (error : Error) : M reply :=
  ret (res_status_json 500 (errorBody (message error))).

(** POST /llama. *)
Definition post_llama (body : object) : M reply :=
  let prompt := lookup "prompt" body in
  tryCatch
    (answer <- chatWithModel (VString AI_MODEL.LLAMA) prompt ;;
     ret (res_json (VObject [("answer", answer)])))
    replyError.

(** [answer.match(regex)]: a method of strings only. *)
Definition stringMatch (answer : value) (r : RegExp.regexp)
  : M (option RegExp.matchArray) :=
  match answer with
  | VString s => ret (RegExp.exec r s)
  | _ => throw (TypeError answer "match")
  end.

(** [raw.trim()] on an element of the match array ([undefined] for a group
    that took no part in the match). *)
Definition trimOf (raw : option jsstring) : M value :=
  match raw with
  | Some s => ret (VString (trim s))
  | None => throw (TypeError VUndefined "trim")
  end.

(** The shaping of the /deepseek handler, from the regular expression to
    the reply. *)
Definition shapeAnswer (answer : value) : M reply :=
  m <- stringMatch answer regex ;;
  match m with
  | Some arr =>
    let rawThink := nth 0 (RegExp.group arr) None in
    let rawSay := nth 1 (RegExp.group arr) None in
    think <- trimOf rawThink ;;
    say <- trimOf rawSay ;;
    ret (res_json (VObject [("think", think); ("say", say)]))
  | None =>
    ret (res_status_json 400 (errorBody MSG_BAD_FORMAT))
  end.

(** POST /deepseek. *)
Definition post_deepseek (body : object) : M reply :=
  let prompt := lookup "prompt" body in
  tryCatch
    (answer <- chatWithModel (VString AI_MODEL.DEEPSEEK) prompt ;;
     shapeAnswer answer)
    replyError.

(** POST /flux. *)
Definition post_flux (body : object) : M reply :=
  let prompt := lookup "prompt" body in
  tryCatch
    (result <- createImage (VString AI_MODEL.FLUX) prompt ;;
     ret (res_json (VObject [("result", result)])))
    replyError.

(** The three operations of the router. *)
Inductive operation := Llama | Deepseek | Flux.

Definition route (op : operation) : object -> M reply :=
  match op with
  | Llama => post_llama
  | Deepseek => post_deepseek
  | Flux => post_flux
  end.

End Gateway.

(** Payloads and providers to run the handlers on. *)
Module Samples.

(** A chat completion with one choice of the given content. *)
Definition chatCompletion (content : value) : value :=
  VObject
    [("choices",
      VArray [VObject [("message", VObject [("content", content)])]])].

(** An image result with one image at the given URL. *)
Definition imageResult (url : value) : value :=
  VObject [("data", VArray [VObject [("url", url)]])].

(** A provider that resolves every call with the same payload. *)
Definition resolving (payload : value) : call -> outcome :=
  fun _ => Resolves payload.

(** A provider that rejects every call with the same fault. *)
Definition rejecting (msg : jsstring) : call -> outcome :=
  fun _ => Rejects {| message := msg |}.

(** The messages of V8 for the faults of a conversion to a string, of a
    property read and of a call of something that is no function. *)
Definition engineMessage (v : value) (k : string) : jsstring :=
  if String.eqb k "toString" then
    lit "Cannot convert object to primitive value"
  else
    match v with
    | VUndefined =>
      lit "Cannot read properties of undefined (reading '" ++ lit k
        ++ lit "')"
    | VNull =>
      lit "Cannot read properties of null (reading '" ++ lit k ++ lit "')"
    | _ => lit "answer." ++ lit k ++ lit " is not a function"
    end.

End Samples.

End Server.

(* ================================================================== *)
(** ** Facts on strings *)

Module StringFacts.

Import JsString.
Local Open Scope list_scope.

Lemma startsWith_app (p s : jsstring) : startsWith p (p ++ s) = true.
Proof.
  induction p as [|a p IH]; simpl; [reflexivity|].
  now rewrite N.eqb_refl, IH.
Qed.

Lemma startsWith_inv (p s : jsstring) :
  startsWith p s = true -> exists r, s = p ++ r.
Proof.
  revert s; induction p as [|a p IH]; intros s H.
  - now exists s.
  - destruct s as [|b s]; simpl in H; [discriminate|].
    apply andb_true_iff in H as [Hab Hps].
    apply N.eqb_eq in Hab; subst b.
    destruct (IH _ Hps) as [r ->]. now exists r.
Qed.

Lemma skipn_length_app (p s : jsstring) : skipn (List.length p) (p ++ s) = s.
Proof. induction p; simpl; auto. Qed.

Lemma includes_cons_false (p : jsstring) (x : N) (s : jsstring) :
  includes p (x :: s) = false ->
  startsWith p (x :: s) = false /\ includes p s = false.
Proof. simpl. intros H. now apply orb_false_iff in H. Qed.

Lemma includes_false_startsWith (p s : jsstring) :
  includes p s = false -> startsWith p s = false.
Proof.
  destruct s; simpl; intros H; now apply orb_false_iff in H as [H _].
Qed.

Lemma includes_app_false_r (p a b : jsstring) :
  includes p (a ++ b) = false -> includes p b = false.
Proof.
  induction a as [|x a IH]; simpl; [auto|].
  intros H. apply orb_false_iff in H as [_ H]. auto.
Qed.

Lemma startsWith_prefix_app (p u w : jsstring) :
  startsWith p u = true -> startsWith p (u ++ w) = true.
Proof.
  intros H. destruct (startsWith_inv _ _ H) as [r ->].
  rewrite <- app_assoc. apply startsWith_app.
Qed.

Lemma includes_app_false_l (p a b : jsstring) :
  includes p (a ++ b) = false -> includes p a = false.
Proof.
  induction a as [|x a IH]; intros H.
  - simpl. rewrite orb_false_r.
    destruct (startsWith p []) eqn:E; [|reflexivity].
    apply includes_false_startsWith in H.
    now rewrite (startsWith_prefix_app _ _ b E) in H.
  - change ((x :: a) ++ b) with (x :: (a ++ b)) in H.
    apply includes_cons_false in H as [H1 H2].
    simpl. apply orb_false_iff; split; [|auto].
    destruct (startsWith p (x :: a)) eqn:E; [|reflexivity].
    change (x :: a ++ b) with ((x :: a) ++ b) in H1.
    now rewrite (startsWith_prefix_app _ _ b E) in H1.
Qed.

Lemma includes_true_iff (p s : jsstring) :
  includes p s = true <-> exists a b, s = a ++ p ++ b.
Proof.
  split.
  - induction s as [|x s IH]; simpl; intros H.
    + rewrite orb_false_r in H. destruct (startsWith_inv _ _ H) as [r Hr].
      now exists [], r.
    + apply orb_true_iff in H as [H|H].
      * destruct (startsWith_inv _ _ H) as [r Hr]. now exists [], r.
      * destruct (IH H) as (a & b & ->). now exists (x :: a), b.
  - intros (a & b & ->).
    destruct (includes p (a ++ p ++ b)) eqn:E; [reflexivity|].
    apply includes_app_false_r, includes_false_startsWith in E.
    now rewrite startsWith_app in E.
Qed.

(** A pattern that starts before the end of [u] and runs past it leaves a
    non-empty rest that begins what follows [u]. *)
Lemma startsWith_straddle (p u w : jsstring) :
  startsWith p (u ++ w) = true -> startsWith p u = false ->
  exists p2, p = u ++ p2 /\ p2 <> [] /\ startsWith p2 w = true.
Proof.
  revert p; induction u as [|y u IH]; intros p H1 H2.
  - exists p; repeat split; auto. intros ->. discriminate.
  - destruct p as [|a p]; [discriminate|].
    simpl in H1, H2.
    apply andb_true_iff in H1 as [Hay H1].
    rewrite Hay in H2. simpl in H2.
    apply N.eqb_eq in Hay; subst y.
    destruct (IH _ H1 H2) as (p2 & -> & Hne & Hw).
    now exists p2.
Qed.

(** A tag whose first character does not occur again in it cannot start
    inside a text that is free of it and end inside the copy that follows. *)
Lemma no_early_start (c : N) (t' u rest : jsstring) :
  ~ In c t' ->
  includes (c :: t') u = false ->
  forall a x b, u = a ++ x :: b ->
    startsWith (c :: t') ((x :: b) ++ (c :: t') ++ rest) = false.
Proof.
  intros Hc Hu a x b ->.
  apply includes_app_false_r, includes_false_startsWith in Hu.
  destruct (startsWith (c :: t') ((x :: b) ++ (c :: t') ++ rest)) eqn:E;
    [exfalso|reflexivity].
  destruct (startsWith_straddle _ _ _ E Hu) as (p2 & Hp & Hne & Hw).
  injection Hp as -> ->.
  destruct p2 as [|d p2]; [congruence|].
  simpl in Hw. apply andb_true_iff in Hw as [Hd _].
  apply N.eqb_eq in Hd; subst d.
  apply Hc, in_or_app. right. now left.
Qed.

End StringFacts.

(* ================================================================== *)
(** ** Facts on the matcher *)

Module RegExpFacts.

Import JsString RegExp StringFacts.
Local Open Scope list_scope.

Section Stars.
Variable f : flags.
Variable R : Type.
Hypothesis dotAll_on : dotAll f = true.

Lemma dotAccepts_all (c : N) : dotAccepts f c = true.
Proof. unfold dotAccepts. now rewrite dotAll_on. Qed.

Lemma lazyStar_ext (k k' : continuation R) (s : jsstring) (cs : captures) :
  (forall s', k s' cs = k' s' cs) ->
  lazyStar f s cs k = lazyStar f s cs k'.
Proof.
  intros E. induction s as [|c s IH]; simpl; rewrite E; [reflexivity|].
  now rewrite IH.
Qed.

Lemma greedyStar_ext (k k' : continuation R) (s : jsstring) (cs : captures) :
  (forall s' cs', k s' cs' = k' s' cs') ->
  greedyStar f s cs k = greedyStar f s cs k'.
Proof.
  intros E. induction s as [|c s IH]; simpl; rewrite E; [reflexivity|].
  now rewrite IH.
Qed.

(** Under the [s] flag a greedy star takes the whole rest of the input
    when the continuation accepts the empty rest. *)
Lemma greedyStar_all (k : continuation R) (s : jsstring) (cs : captures)
      (r : R) :
  k [] cs = Some r -> greedyStar f s cs k = Some r.
Proof.
  intros Hk. induction s as [|c s IH]; simpl; [assumption|].
  now rewrite dotAccepts_all, IH.
Qed.

(** A lazy star stops at the first rest the continuation accepts. *)
Lemma lazyStar_first (k : continuation R) (u w : jsstring) (cs : captures) :
  (forall a x b, u = a ++ x :: b -> k ((x :: b) ++ w) cs = None) ->
  lazyStar f (u ++ w) cs k = lazyStar f w cs k.
Proof.
  induction u as [|x u IH]; intros H; [reflexivity|].
  change ((x :: u) ++ w) with (x :: (u ++ w)).
  cbn [lazyStar]. change (x :: (u ++ w)) with ((x :: u) ++ w).
  rewrite (H [] x u eq_refl), dotAccepts_all.
  apply IH. intros a y b ->. now apply (H (x :: a) y b).
Qed.

Lemma lazyStar_here (k : continuation R) (s : jsstring) (cs : captures)
      (r : R) :
  k s cs = Some r -> lazyStar f s cs k = Some r.
Proof. intros H. destruct s; simpl; now rewrite H. Qed.

Lemma lazyStar_none (k : continuation R) (s : jsstring) (cs : captures) :
  (forall a b, s = a ++ b -> k b cs = None) ->
  lazyStar f s cs k = None.
Proof.
  induction s as [|x s IH]; intros H; simpl.
  - now rewrite (H [] [] eq_refl).
  - rewrite (H [] (x :: s) eq_refl), dotAccepts_all.
    apply IH. intros a b ->. now apply (H (x :: a) b).
Qed.

(** A successful lazy star: the continuation accepted the rest [w], and
    refused every longer rest. *)
Lemma lazyStar_some_inv (k : continuation R) (s : jsstring) (cs : captures)
      (r : R) :
  lazyStar f s cs k = Some r ->
  exists u w, s = u ++ w /\ k w cs = Some r /\
    forall a x b, u = a ++ x :: b -> k ((x :: b) ++ w) cs = None.
Proof.
  induction s as [|x s IH]; simpl.
  - destruct (k [] cs) eqn:E; [|discriminate].
    intros [= <-]. exists [], []. repeat split; auto.
    intros [|? ?] ? ? ?; discriminate.
  - destruct (k (x :: s) cs) eqn:E.
    + intros [= <-]. exists [], (x :: s). repeat split; auto.
      intros [|? ?] ? ? ?; discriminate.
    + destruct (dotAccepts f x); [|discriminate].
      intros H. destruct (IH H) as (u & w & -> & Hk & Hfirst).
      exists (x :: u), w. repeat split; auto.
      intros [|y a] z b Hz.
      * injection Hz as <- <-. exact E.
      * injection Hz as <- ->. now apply (Hfirst a z b).
Qed.

Lemma lazyStar_some_if (k : continuation R) (u w : jsstring) (cs : captures) :
  k w cs <> None -> lazyStar f (u ++ w) cs k <> None.
Proof.
  intros Hk. induction u as [|x u IH].
  - destruct (k w cs) eqn:E; [|congruence].
    simpl. now rewrite (lazyStar_here _ _ _ E).
  - change ((x :: u) ++ w) with (x :: (u ++ w)). cbn [lazyStar].
    destruct (k (x :: u ++ w) cs); [discriminate|].
    now rewrite dotAccepts_all.
Qed.

End Stars.

Section Run.
Variable f : flags.
Variable R : Type.

Lemma run_ext (p : pattern) :
  forall (k k' : continuation R) (s : jsstring) (cs : captures),
  (forall s' cs', k s' cs' = k' s' cs') ->
  run f p s cs k = run f p s cs k'.
Proof.
  induction p as [| c | | p1 IH1 p2 IH2 | q | n p IH]; intros k k' s cs E;
    simpl.
  - apply E.
  - destruct s as [|x s]; [reflexivity|]. now rewrite E.
  - destruct s as [|x s]; [reflexivity|]. now rewrite E.
  - apply IH1. intros s' cs'. now apply IH2.
  - destruct q; [now apply greedyStar_ext | apply lazyStar_ext; intros; apply E].
  - apply IH. intros s' cs'. apply E.
Qed.

(** A literal run of characters is a test of [startsWith]. *)
Lemma run_chars (t : jsstring) :
  forall (s : jsstring) (cs : captures) (k : continuation R),
  run f (chars t) s cs k =
  if startsWith t s then k (skipn (List.length t) s) cs else None.
Proof.
  induction t as [|c t IH]; intros s cs k; simpl; [reflexivity|].
  destruct s as [|x s]; [reflexivity|].
  rewrite (N.eqb_sym c x).
  destruct (N.eqb x c); simpl; [apply IH | reflexivity].
Qed.

End Run.

Lemma consumed_nil (s : jsstring) : consumed s [] = s.
Proof.
  unfold consumed. simpl. rewrite Nat.sub_0_r. apply firstn_all.
Qed.

Lemma consumed_app (u w : jsstring) : consumed (u ++ w) w = u.
Proof.
  unfold consumed. rewrite length_app.
  replace (List.length u + List.length w - List.length w)%nat
    with (List.length u + 0)%nat by lia.
  rewrite firstn_app_2. simpl. apply app_nil_r.
Qed.

(** An attempt of [exec] that fails at every start position inside [pre]
    goes on after [pre]. *)
Lemma exec_skip (r : regexp) (pre w : jsstring) :
  (forall a x b, pre = a ++ x :: b -> matchAt r ((x :: b) ++ w) = None) ->
  exec r (pre ++ w) = exec r w.
Proof.
  induction pre as [|x pre IH]; intros H; [reflexivity|].
  change ((x :: pre) ++ w) with (x :: (pre ++ w)). cbn [exec].
  change (x :: (pre ++ w)) with ((x :: pre) ++ w).
  rewrite (H [] x pre eq_refl).
  apply IH. intros a y b ->. now apply (H (x :: a) y b).
Qed.

Lemma exec_here (r : regexp) (s : jsstring) (m : matchArray) :
  matchAt r s = Some m -> exec r s = Some m.
Proof. intros H. destruct s; simpl; now rewrite H. Qed.

Lemma exec_none (r : regexp) (s : jsstring) :
  (forall a b, s = a ++ b -> matchAt r b = None) -> exec r s = None.
Proof.
  induction s as [|x s IH]; intros H; simpl.
  - now rewrite (H [] [] eq_refl).
  - rewrite (H [] (x :: s) eq_refl).
    apply IH. intros a b ->. now apply (H (x :: a) b).
Qed.

(** A successful [exec]: the attempt at [b] succeeded, and every attempt
    further left failed. *)
Lemma exec_some_inv (r : regexp) (s : jsstring) (m : matchArray) :
  exec r s = Some m ->
  exists a b, s = a ++ b /\ matchAt r b = Some m /\
    forall a1 x a2, a = a1 ++ x :: a2 -> matchAt r ((x :: a2) ++ b) = None.
Proof.
  induction s as [|x s IH]; simpl.
  - destruct (matchAt r []) eqn:E; [|discriminate].
    intros [= <-]. exists [], []. repeat split; auto.
    intros [|? ?] ? ? ?; discriminate.
  - destruct (matchAt r (x :: s)) eqn:E.
    + intros [= <-]. exists [], (x :: s). repeat split; auto.
      intros [|? ?] ? ? ?; discriminate.
    + intros H. destruct (IH H) as (a & b & -> & Hm & Hfirst).
      exists (x :: a), b. repeat split; auto.
      intros [|y a1] z a2 Hz.
      * injection Hz as <- <-. exact E.
      * injection Hz as <- ->. now apply (Hfirst a1 z a2).
Qed.

Lemma exec_some_if (r : regexp) (a b : jsstring) :
  matchAt r b <> None -> exec r (a ++ b) <> None.
Proof.
  intros Hm. induction a as [|x a IH].
  - destruct (matchAt r b) eqn:E; [|congruence].
    simpl. now rewrite (exec_here _ _ E).
  - change ((x :: a) ++ b) with (x :: (a ++ b)). cbn [exec].
    now destruct (matchAt r (x :: a ++ b)).
Qed.

End RegExpFacts.

(* ================================================================== *)
(** ** Facts on the regular expression of the /deepseek handler *)

Module ThinkFacts.

Import Js JsString RegExp Server StringFacts RegExpFacts.
Local Open Scope list_scope.
Local Open Scope N_scope.

Lemma THINK_OPEN_eq : THINK_OPEN = 60 :: [116; 104; 105; 110; 107; 62].
Proof. reflexivity. Qed.

Lemma THINK_CLOSE_eq :
  THINK_CLOSE = 60 :: [47; 116; 104; 105; 110; 107; 62].
Proof. reflexivity. Qed.

Lemma THINK_OPEN_length : List.length THINK_OPEN = 7%nat.
Proof. reflexivity. Qed.

Lemma THINK_CLOSE_length : List.length THINK_CLOSE = 8%nat.
Proof. reflexivity. Qed.

Lemma skip_open (s : jsstring) : skipn 7 (THINK_OPEN ++ s) = s.
Proof. reflexivity. Qed.

Lemma skip_close (s : jsstring) : skipn 8 (THINK_CLOSE ++ s) = s.
Proof. reflexivity. Qed.

Lemma dotAll_regex : dotAll (flag regex) = true.
Proof. reflexivity. Qed.

(** One attempt of the regular expression, in closed form: the open tag,
    then the first close tag, then all the rest. *)
Lemma matchAt_regex (s : jsstring) :
  matchAt regex s =
  if startsWith THINK_OPEN s then
    lazyStar (flag regex) (skipn 7 s) [None; None]
      (fun s2 _ =>
         if startsWith THINK_CLOSE s2 then
           Some {| whole := s;
                   group := [Some (consumed (skipn 7 s) s2);
                             Some (skipn 8 s2)] |}
         else None)
  else None.
Proof.
  unfold matchAt. change (source regex) with
    (Seq (chars THINK_OPEN)
       (Seq (Group 1 (DotStar Lazy))
          (Seq (chars THINK_CLOSE) (Group 2 (DotStar Greedy))))).
  change (groups regex) with 2%nat.
  cbn [run repeat]. rewrite run_chars, THINK_OPEN_length.
  destruct (startsWith THINK_OPEN s); [|reflexivity].
  apply lazyStar_ext. intros s2.
  rewrite run_chars, THINK_CLOSE_length.
  destruct (startsWith THINK_CLOSE s2); [|reflexivity].
  cbn [pred setCapture].
  erewrite greedyStar_all; [reflexivity | apply dotAll_regex |].
  now rewrite !consumed_nil.
Qed.

Lemma matchAt_no_open (s : jsstring) :
  startsWith THINK_OPEN s = false -> matchAt regex s = None.
Proof. intros H. now rewrite matchAt_regex, H. Qed.

Lemma matchAt_some_if (u t : jsstring) :
  matchAt regex (THINK_OPEN ++ u ++ THINK_CLOSE ++ t) <> None.
Proof.
  rewrite matchAt_regex, startsWith_app.
  rewrite skip_open.
  apply lazyStar_some_if; [apply dotAll_regex|].
  now rewrite startsWith_app.
Qed.

Lemma matchAt_open (inner trailing : jsstring) :
  includes THINK_CLOSE inner = false ->
  matchAt regex (THINK_OPEN ++ inner ++ THINK_CLOSE ++ trailing) =
  Some {| whole := THINK_OPEN ++ inner ++ THINK_CLOSE ++ trailing;
          group := [Some inner; Some trailing] |}.
Proof.
  intros Hin.
  rewrite matchAt_regex, startsWith_app.
  rewrite skip_open.
  rewrite lazyStar_first; [|apply dotAll_regex|].
  - apply lazyStar_here.
    now rewrite startsWith_app, consumed_app, skip_close.
  - intros a x b E.
    rewrite THINK_CLOSE_eq in *.
    rewrite (@no_early_start 60 _ inner trailing) with (a := a); auto.
    simpl. intros H. repeat destruct H as [H|H]; try discriminate; auto.
Qed.

(** The match of the left-most open tag with the first close tag. *)
Lemma exec_think (pre inner trailing : jsstring) :
  includes THINK_OPEN pre = false ->
  includes THINK_CLOSE inner = false ->
  exec regex (pre ++ THINK_OPEN ++ inner ++ THINK_CLOSE ++ trailing) =
  Some {| whole := THINK_OPEN ++ inner ++ THINK_CLOSE ++ trailing;
          group := [Some inner; Some trailing] |}.
Proof.
  intros Hpre Hin.
  rewrite exec_skip.
  - apply exec_here, matchAt_open, Hin.
  - intros a x b E. apply matchAt_no_open.
    rewrite THINK_OPEN_eq in *.
    apply (@no_early_start 60 _ pre) with (a := a); auto.
    simpl. intros H. repeat destruct H as [H|H]; try discriminate; auto.
Qed.

Lemma exec_no_open (s : jsstring) :
  includes THINK_OPEN s = false -> exec regex s = None.
Proof.
  intros H. apply exec_none. intros a b ->.
  apply matchAt_no_open, includes_false_startsWith.
  now apply includes_app_false_r in H.
Qed.

(** Every match is the match of the left-most open tag with the first
    close tag after it. *)
Lemma exec_some_shape (s : jsstring) (m : matchArray) :
  exec regex s = Some m ->
  exists pre inner trailing,
    s = pre ++ THINK_OPEN ++ inner ++ THINK_CLOSE ++ trailing /\
    includes THINK_OPEN pre = false /\
    includes THINK_CLOSE inner = false /\
    m = {| whole := THINK_OPEN ++ inner ++ THINK_CLOSE ++ trailing;
           group := [Some inner; Some trailing] |}.
Proof.
  intros H.
  destruct (exec_some_inv _ _ H) as (pre & b & -> & Hb & Hleft).
  rewrite matchAt_regex in Hb.
  destruct (startsWith THINK_OPEN b) eqn:Eo; [|discriminate].
  destruct (startsWith_inv _ _ Eo) as [rest ->].
  rewrite skip_open in Hb.
  destruct (lazyStar_some_inv _ _ _ _ Hb) as (inner & w & -> & Hw & Hfirst).
  destruct (startsWith THINK_CLOSE w) eqn:Ec; [|discriminate].
  destruct (startsWith_inv _ _ Ec) as [trailing ->].
  exists pre, inner, trailing. split; [reflexivity|].
  assert (Hpre : includes THINK_OPEN pre = false).
  { destruct (includes THINK_OPEN pre) eqn:E; [exfalso|reflexivity].
    apply includes_true_iff in E as (a1 & a2 & ->).
    pose proof (Hleft a1 60 ([116; 104; 105; 110; 107; 62] ++ a2)) as Hn.
    rewrite THINK_OPEN_eq in Hn at 1. specialize (Hn eq_refl).
    change (60 :: [116; 104; 105; 110; 107; 62] ++ a2)
      with (THINK_OPEN ++ a2) in Hn.
    rewrite <- app_assoc in Hn.
    replace (a2 ++ THINK_OPEN ++ inner ++ THINK_CLOSE ++ trailing)
      with ((a2 ++ THINK_OPEN ++ inner) ++ THINK_CLOSE ++ trailing) in Hn
      by now rewrite <- !app_assoc.
    now apply matchAt_some_if in Hn. }
  assert (Hin : includes THINK_CLOSE inner = false).
  { destruct (includes THINK_CLOSE inner) eqn:E; [exfalso|reflexivity].
    apply includes_true_iff in E as (u1 & u2 & ->).
    pose proof (Hfirst u1 60 ([47; 116; 104; 105; 110; 107; 62] ++ u2)) as Hn.
    rewrite THINK_CLOSE_eq in Hn at 1. specialize (Hn eq_refl).
    change (60 :: [47; 116; 104; 105; 110; 107; 62] ++ u2)
      with (THINK_CLOSE ++ u2) in Hn.
    rewrite <- app_assoc, startsWith_app in Hn. discriminate. }
  repeat split; auto.
  rewrite consumed_app, skip_close in Hw. now injection Hw as <-.
Qed.

End ThinkFacts.

(* ================================================================== *)
(** ** Facts on computations *)

Module MonadFacts.

Import Js.
Local Open Scope list_scope.
Local Open Scope js_scope.

Lemma completionOf_bind {A B} (m : M A) (f : A -> M B) :
  completionOf (bind m f) =
  match completionOf m with
  | Normal a => completionOf (f a)
  | Throw e => Throw e
  end.
Proof.
  destruct m as [[a|e] tr]; simpl; [|reflexivity]. now destruct (f a).
Qed.

Lemma callsOf_bind {A B} (m : M A) (f : A -> M B) :
  callsOf (bind m f) =
  callsOf m ++
  match completionOf m with
  | Normal a => callsOf (f a)
  | Throw _ => []
  end.
Proof.
  destruct m as [[a|e] tr]; simpl.
  - now destruct (f a).
  - now rewrite app_nil_r.
Qed.

Lemma completionOf_tryCatch {A} (m : M A) (h : Error -> M A) :
  completionOf (tryCatch m h) =
  match completionOf m with
  | Normal a => Normal a
  | Throw e => completionOf (h e)
  end.
Proof.
  destruct m as [[a|e] tr]; simpl; [reflexivity|]. now destruct (h e).
Qed.

Lemma callsOf_tryCatch {A} (m : M A) (h : Error -> M A) :
  callsOf (tryCatch m h) =
  callsOf m ++
  match completionOf m with
  | Normal _ => []
  | Throw e => callsOf (h e)
  end.
Proof.
  destruct m as [[a|e] tr]; simpl.
  - now rewrite app_nil_r.
  - now destruct (h e).
Qed.

Lemma bind_ret {A B} (a : A) (f : A -> M B) : bind (ret a) f = f a.
Proof. unfold bind, ret. now destruct (f a). Qed.

Lemma M_eq {A} (m : M A) : m = (completionOf m, callsOf m).
Proof. now destruct m. Qed.

End MonadFacts.

(* ================================================================== *)
(** ** The claims on the shaping of the reasoning chat *)

Import Js JsString Server StringFacts RegExpFacts ThinkFacts MonadFacts.
Local Open Scope string_scope.
Local Open Scope list_scope.

Lemma shapeAnswer_match (tem : value -> string -> jsstring)
      (pre inner trailing : jsstring) :
  includes THINK_OPEN pre = false ->
  includes THINK_CLOSE inner = false ->
  shapeAnswer tem
    (VString (pre ++ THINK_OPEN ++ inner ++ THINK_CLOSE ++ trailing)) =
  ret (res_json (VObject [("think", VString (trim inner));
                          ("say", VString (trim trailing))])).
Proof.
  intros Hpre Hin. unfold shapeAnswer, stringMatch.
  cbn [bind ret]. now rewrite (exec_think _ _ trailing Hpre Hin).
Qed.

Lemma shapeAnswer_no_match (tem : value -> string -> jsstring)
      (raw : jsstring) :
  RegExp.exec regex raw = None ->
  shapeAnswer tem (VString raw) =
  ret (res_status_json 400 (errorBody MSG_BAD_FORMAT)).
Proof.
  intros H. unfold shapeAnswer, stringMatch. cbn [bind ret]. now rewrite H.
Qed.

Lemma post_deepseek_shape (together : call -> outcome)
      (env : option jsstring) (tem : value -> string -> jsstring)
      (body : object) (answer : value) (rep : reply) :
  completionOf
    (chatWithModel together env tem (VString AI_MODEL.DEEPSEEK)
       (lookup "prompt" body)) = Normal answer ->
  shapeAnswer tem answer = ret rep ->
  completionOf (post_deepseek together env tem body) = Normal rep.
Proof.
  intros Hchat Hshape. unfold post_deepseek.
  rewrite completionOf_tryCatch, completionOf_bind, Hchat, Hshape.
  reflexivity.
Qed.

(** C1.  A raw answer that holds a well-formed reasoning segment -- the
    open tag <think> (the first of the text), an inner content free of the
    close tag, the close tag </think> -- followed by a trailing text is
    shaped into the reply whose [think] is the trimmed inner content and
    whose [say] is the trimmed trailing text; so is the reply of POST
    /deepseek when the chat answers that text.  At the text
    "<think> step one </think>  final answer " the two fields are
    "step one" and "final answer". *)
Theorem C1_think_say_trimmed
        (together : call -> outcome) (env : option jsstring)
        (tem : value -> string -> jsstring) (body : object)
        (pre inner trailing : jsstring)
        (Hpre : includes THINK_OPEN pre = false)
        (Hinner : includes THINK_CLOSE inner = false)
        (Hchat :
           completionOf
             (chatWithModel together env tem (VString AI_MODEL.DEEPSEEK)
                (lookup "prompt" body)) =
           Normal
             (VString (pre ++ THINK_OPEN ++ inner ++ THINK_CLOSE ++ trailing))) :
  shapeAnswer tem
    (VString (pre ++ THINK_OPEN ++ inner ++ THINK_CLOSE ++ trailing)) =
  ret (res_json (VObject [("think", VString (trim inner));
                          ("say", VString (trim trailing))])) /\
  completionOf (post_deepseek together env tem body) =
  Normal (res_json (VObject [("think", VString (trim inner));
                             ("say", VString (trim trailing))])) /\
  shapeAnswer tem (VString (lit "<think> step one </think>  final answer ")) =
  ret (res_json (VObject [("think", VString (lit "step one"));
                          ("say", VString (lit "final answer"))])).
Proof.
  pose proof (shapeAnswer_match tem _ _ trailing Hpre Hinner) as Hshape.
  split; [exact Hshape|]. split.
  - exact (post_deepseek_shape _ _ _ _ Hchat Hshape).
  - reflexivity.
Qed.

Lemma C1_witness :
  let raw := lit "<think> step one </think>  final answer " in
  let together := Samples.resolving (Samples.chatCompletion (VString raw)) in
  let body := [("prompt", VString (lit "why?"))] in
  post_deepseek together None Samples.engineMessage body =
  (Normal (res_json (VObject [("think", VString (lit "step one"));
                              ("say", VString (lit "final answer"))])),
   [ChatCompletionsCreate
      (chatBody None (VString AI_MODEL.DEEPSEEK) (VString (lit "why?")))]).
Proof.
  intros raw together body.
  pose proof (C1_think_say_trimmed together None Samples.engineMessage body
                [] (lit " step one ") (lit "  final answer ")
                eq_refl eq_refl eq_refl) as [_ [H _]].
  rewrite (M_eq (post_deepseek together None Samples.engineMessage body)).
  rewrite H. reflexivity.
Defined.

(** C2, as stated, fails: the pattern is not anchored, and a text that
    does not begin with the open tag is matched all the same.  At
    "x<think>a</think>b" the match is produced, with "a" and "b" in the two
    groups, although the text begins with "x". *)
Lemma C2_counterexample :
  let raw := lit "x<think>a</think>b" in
  startsWith THINK_OPEN raw = false /\
  RegExp.exec regex raw =
  Some {| RegExp.whole := lit "<think>a</think>b";
          RegExp.group := [Some (lit "a"); Some (lit "b")] |}.
Proof. split; reflexivity. Qed.

(** C2, amended.  A match is produced exactly when the text holds the open
    tag followed, anywhere later, by the close tag -- at any position, not
    only at the beginning of the text.  The match is then the one of the
    left-most open tag with the first close tag after it: group 1 is the
    text between the two (of any characters, line terminators included),
    group 2 is all the text after the close tag, whatever its length. *)
Theorem C2_match_of_first_tags (s : jsstring) :
  (RegExp.exec regex s <> None <->
   exists a b c, s = a ++ THINK_OPEN ++ b ++ THINK_CLOSE ++ c) /\
  (forall m,
     RegExp.exec regex s = Some m <->
     exists pre inner trailing,
       s = pre ++ THINK_OPEN ++ inner ++ THINK_CLOSE ++ trailing /\
       includes THINK_OPEN pre = false /\
       includes THINK_CLOSE inner = false /\
       m = {| RegExp.whole :=
                THINK_OPEN ++ inner ++ THINK_CLOSE ++ trailing;
              RegExp.group := [Some inner; Some trailing] |}).
Proof.
  split.
  - split.
    + intros H. destruct (RegExp.exec regex s) as [m|] eqn:E; [|congruence].
      destruct (exec_some_shape _ E) as (pre & inner & trailing & -> & _).
      now exists pre, inner, trailing.
    + intros (a & b & c & ->).
      apply exec_some_if, matchAt_some_if.
  - intros m. split.
    + apply exec_some_shape.
    + intros (pre & inner & trailing & -> & Hpre & Hin & ->).
      now apply exec_think.
Qed.

Lemma C2_witness :
  let inner := lit "line one" ++ [10%N] ++ lit "line two" in
  let raw :=
    lit "intro" ++ [10%N] ++ THINK_OPEN ++ inner ++ THINK_CLOSE ++
    [10%N] ++ lit "answer" in
  RegExp.exec regex raw =
  Some {| RegExp.whole :=
            THINK_OPEN ++ inner ++ THINK_CLOSE ++ [10%N] ++ lit "answer";
          RegExp.group := [Some inner; Some ([10%N] ++ lit "answer")] |}.
Proof.
  intros inner raw.
  apply (proj2 (C2_match_of_first_tags raw)).
  exists (lit "intro" ++ [10%N]), inner, ([10%N] ++ lit "answer").
  repeat split; reflexivity.
Defined.

(** C4.  A raw answer that holds no <think> tag at all is not matched, the
    shaping replies with the format error under the status 400, and so
    does POST /deepseek when the chat answers that text: the handler
    completes with that reply. *)
Theorem C4_no_tag_format_error
        (together : call -> outcome) (env : option jsstring)
        (tem : value -> string -> jsstring) (body : object)
        (raw : jsstring)
        (Hno : includes THINK_OPEN raw = false)
        (Hchat :
           completionOf
             (chatWithModel together env tem (VString AI_MODEL.DEEPSEEK)
                (lookup "prompt" body)) = Normal (VString raw)) :
  RegExp.exec regex raw = None /\
  shapeAnswer tem (VString raw) =
  ret (res_status_json 400 (errorBody MSG_BAD_FORMAT)) /\
  completionOf (post_deepseek together env tem body) =
  Normal (res_status_json 400 (errorBody MSG_BAD_FORMAT)) /\
  isClientError (status (res_status_json 400 (errorBody MSG_BAD_FORMAT)))
  = true.
Proof.
  pose proof (exec_no_open _ Hno) as Hexec.
  pose proof (shapeAnswer_no_match tem _ Hexec) as Hshape.
  repeat split; auto.
  exact (post_deepseek_shape _ _ _ _ Hchat Hshape).
Qed.

Lemma C4_witness :
  let raw := lit "just an answer, no reasoning" in
  let together := Samples.resolving (Samples.chatCompletion (VString raw)) in
  let body := [("prompt", VString (lit "why?"))] in
  includes THINK_OPEN raw = false /\
  completionOf (post_deepseek together None Samples.engineMessage body) =
  Normal {| status := 400; json := errorBody MSG_BAD_FORMAT |}.
Proof.
  intros raw together body. split; [reflexivity|].
  apply (C4_no_tag_format_error together None Samples.engineMessage body
           (raw := raw) eq_refl eq_refl).
Defined.

(* ================================================================== *)
(** ** Facts on the adapter and on the handlers *)

Section AdapterFacts.

Variable together : call -> outcome.
Variable env : option jsstring.
Variable tem : value -> string -> jsstring.

Lemma get_calls (v : value) (k : string) : callsOf (get tem v k) = [].
Proof. now destruct v. Qed.

Lemma getFirst_calls (v : value) : callsOf (getFirst tem v) = [].
Proof. now destruct v. Qed.

(** A call followed by steps that make no call: one call in all. *)
Lemma callsOf_await_then {A} (c : call) (rest : value -> M A) :
  (forall r, callsOf (rest r) = []) ->
  callsOf (bind (await together c) rest) = [c].
Proof.
  intros H. rewrite callsOf_bind. unfold await.
  destruct (together c) as [v|e]; simpl; [|reflexivity].
  now rewrite H.
Qed.

Lemma completionOf_await_rejects {A} (c : call) (rest : value -> M A)
      (e : Error) :
  together c = Rejects e ->
  completionOf (bind (await together c) rest) = Throw e.
Proof.
  intros H. rewrite completionOf_bind. unfold await. now rewrite H.
Qed.

Lemma completionOf_await_resolves {A} (c : call) (rest : value -> M A)
      (v : value) :
  together c = Resolves v ->
  completionOf (bind (await together c) rest) = completionOf (rest v).
Proof.
  intros H. rewrite completionOf_bind. unfold await. now rewrite H.
Qed.

(** Reading [result.choices[0].message.content] (or [result.data[0].url])
    makes no call. *)
Lemma read_path_calls (k1 k2 k3 : string) (result : value) :
  callsOf
    (bind (get tem result k1)
       (fun a => bind (getFirst tem a)
                   (fun b => bind (get tem b k2)
                               (fun c => get tem c k3)))) = [].
Proof.
  rewrite callsOf_bind, get_calls.
  destruct (completionOf (get tem result k1)) as [a|]; [|reflexivity].
  rewrite callsOf_bind, getFirst_calls.
  destruct (completionOf (getFirst tem a)) as [b|]; [|reflexivity].
  rewrite callsOf_bind, get_calls.
  destruct (completionOf (get tem b k2)) as [c|]; [|reflexivity].
  now rewrite get_calls.
Qed.

Lemma read_url_calls (result : value) :
  callsOf
    (bind (get tem result "data")
       (fun a => bind (getFirst tem a) (fun b => get tem b "url"))) = [].
Proof.
  rewrite callsOf_bind, get_calls.
  destruct (completionOf (get tem result "data")) as [a|]; [|reflexivity].
  rewrite callsOf_bind, getFirst_calls.
  destruct (completionOf (getFirst tem a)) as [b|]; [|reflexivity].
  now rewrite get_calls.
Qed.

(** *** chatWithModel *)

Lemma chatWithModel_falsy (model prompt : value) :
  ToBoolean prompt = false ->
  chatWithModel together env tem model prompt =
  (Throw {| message := MSG_PROMPT_REQUIRED |}, []).
Proof. intros H. unfold chatWithModel. now rewrite H. Qed.

Lemma ToString_converts (v : value) :
  toStringFaults v = false -> ToString tem v = ret tt.
Proof. intros H. unfold ToString. now rewrite H. Qed.

Lemma toStringFaults_string (p : jsstring) :
  toStringFaults (VString p) = false.
Proof. reflexivity. Qed.

(** After the test and the conversion, the guarded call. *)
Lemma chatWithModel_guarded (model prompt : value) :
  ToBoolean prompt = true ->
  toStringFaults prompt = false ->
  chatWithModel together env tem model prompt =
  tryCatch
    (bind (await together (ChatCompletionsCreate (chatBody env model prompt)))
       (fun result =>
          bind (get tem result "choices")
            (fun choices =>
               bind (getFirst tem choices)
                 (fun first =>
                    bind (get tem first "message")
                      (fun msg => get tem msg "content")))))
    (fun _ => throw {| message := MSG_MODEL_CALL_FAILED |}).
Proof.
  intros Ht Hc. unfold chatWithModel. rewrite Ht. cbn [negb].
  now rewrite (ToString_converts _ Hc), bind_ret.
Qed.

(** A truthy prompt that cannot be converted faults before the call. *)
Lemma chatWithModel_unconvertible (model prompt : value) :
  ToBoolean prompt = true ->
  toStringFaults prompt = true ->
  chatWithModel together env tem model prompt =
  (Throw (TypeError tem prompt "toString"), []).
Proof.
  intros Ht Hc. unfold chatWithModel, ToString. rewrite Ht, Hc. reflexivity.
Qed.

Lemma chatWithModel_calls (model prompt : value) :
  ToBoolean prompt = true ->
  toStringFaults prompt = false ->
  callsOf (chatWithModel together env tem model prompt) =
  [ChatCompletionsCreate (chatBody env model prompt)].
Proof.
  intros H Hc. rewrite (chatWithModel_guarded _ _ H Hc).
  rewrite callsOf_tryCatch, callsOf_await_then
    by (intros r; apply read_path_calls).
  now destruct (completionOf _).
Qed.

(** Whatever is thrown while the provider is called or its payload is
    read, [chatWithModel] throws its own fixed fault. *)
Lemma chatWithModel_throws (model prompt : value) (e : Error) :
  ToBoolean prompt = true ->
  toStringFaults prompt = false ->
  completionOf (chatWithModel together env tem model prompt) = Throw e ->
  e = {| message := MSG_MODEL_CALL_FAILED |}.
Proof.
  intros H Hc. rewrite (chatWithModel_guarded _ _ H Hc).
  rewrite completionOf_tryCatch.
  destruct (completionOf _); simpl; congruence.
Qed.

Lemma chatWithModel_rejects (model prompt : value) (e : Error) :
  ToBoolean prompt = true ->
  toStringFaults prompt = false ->
  together (ChatCompletionsCreate (chatBody env model prompt)) = Rejects e ->
  completionOf (chatWithModel together env tem model prompt) =
  Throw {| message := MSG_MODEL_CALL_FAILED |}.
Proof.
  intros H Hc Hrej. rewrite (chatWithModel_guarded _ _ H Hc).
  now rewrite completionOf_tryCatch, (completionOf_await_rejects _ Hrej).
Qed.

(** *** createImage *)

Lemma getSteps_flux :
  getStepsFromModel (VString AI_MODEL.FLUX) = ret 4%Z.
Proof. reflexivity. Qed.

Lemma strictEqualsString_false (model : value) (s : jsstring) :
  model <> VString s -> strictEqualsString model s = false.
Proof.
  intros H. destruct model; try reflexivity. simpl.
  destruct (list_eq_dec N.eq_dec s0 s); [congruence|reflexivity].
Qed.

Lemma getSteps_other (model : value) :
  model <> VString AI_MODEL.FLUX ->
  getStepsFromModel model = throw {| message := MSG_NOT_IMPLEMENTED |}.
Proof.
  intros H. unfold getStepsFromModel.
  now rewrite (strictEqualsString_false H).
Qed.

Lemma imageBody_eq (model prompt : value) (steps : Z) :
  imageBody model prompt steps =
  VObject [("model", model); ("prompt", prompt);
           ("width", VNumber 1024); ("height", VNumber 1024);
           ("n", VNumber 1); ("steps", VNumber steps)].
Proof. reflexivity. Qed.

Lemma createImage_flux (prompt : value) :
  createImage together tem (VString AI_MODEL.FLUX) prompt =
  bind (await together
          (ImagesCreate (imageBody (VString AI_MODEL.FLUX) prompt 4)))
       (fun result =>
          bind (get tem result "data")
               (fun data => bind (getFirst tem data)
                              (fun first => get tem first "url"))).
Proof.
  unfold createImage. rewrite getSteps_flux. unfold bind at 1, ret.
  now destruct (bind _ _).
Qed.

Lemma createImage_flux_calls (prompt : value) :
  callsOf (createImage together tem (VString AI_MODEL.FLUX) prompt) =
  [ImagesCreate (imageBody (VString AI_MODEL.FLUX) prompt 4)].
Proof.
  rewrite createImage_flux. apply callsOf_await_then.
  intros r. apply read_url_calls.
Qed.

Lemma createImage_other (model prompt : value) :
  model <> VString AI_MODEL.FLUX ->
  createImage together tem model prompt =
  (Throw {| message := MSG_NOT_IMPLEMENTED |}, []).
Proof.
  intros H. unfold createImage. now rewrite (getSteps_other H).
Qed.

(** *** The handlers *)

Lemma post_llama_completion (body : object) :
  completionOf (post_llama together env tem body) =
  match completionOf
          (chatWithModel together env tem (VString AI_MODEL.LLAMA)
             (lookup "prompt" body)) with
  | Normal answer => Normal (res_json (VObject [("answer", answer)]))
  | Throw e => Normal (res_status_json 500 (errorBody (message e)))
  end.
Proof.
  unfold post_llama. rewrite completionOf_tryCatch, completionOf_bind.
  now destruct (completionOf _).
Qed.

Lemma post_llama_calls (body : object) :
  callsOf (post_llama together env tem body) =
  callsOf (chatWithModel together env tem (VString AI_MODEL.LLAMA)
             (lookup "prompt" body)).
Proof.
  unfold post_llama.
  rewrite callsOf_tryCatch, callsOf_bind, completionOf_bind.
  destruct (completionOf _); simpl; now rewrite !app_nil_r.
Qed.

Lemma shapeAnswer_calls (answer : value) :
  callsOf (shapeAnswer tem answer) = [].
Proof.
  unfold shapeAnswer. destruct answer; try reflexivity. simpl.
  destruct (RegExp.exec regex s) as [arr|]; [|reflexivity].
  destruct (nth 0 (RegExp.group arr) None); [|reflexivity].
  now destruct (nth 1 (RegExp.group arr) None).
Qed.

(** The shaping ends in a reply of status 200, in the format error of
    status 400 (for a text that is not matched), or in a fault. *)
Lemma shapeAnswer_cases (answer : value) :
  (exists rep, completionOf (shapeAnswer tem answer) = Normal rep /\
               status rep = 200%Z) \/
  (completionOf (shapeAnswer tem answer) =
   Normal (res_status_json 400 (errorBody MSG_BAD_FORMAT)) /\
   exists s, answer = VString s /\ RegExp.exec regex s = None) \/
  (exists e, completionOf (shapeAnswer tem answer) = Throw e).
Proof.
  destruct answer;
    try (right; right; eexists; reflexivity).
  destruct (RegExp.exec regex s) as [arr|] eqn:E.
  - left. destruct (exec_some_shape _ E) as (p & i & t & _ & _ & _ & ->).
    eexists. unfold shapeAnswer, stringMatch. cbn [bind ret].
    rewrite E. cbn. split; reflexivity.
  - right; left. split; [|now exists s].
    now rewrite (shapeAnswer_no_match tem _ E).
Qed.

Lemma post_deepseek_completion (body : object) :
  completionOf (post_deepseek together env tem body) =
  match completionOf
          (chatWithModel together env tem (VString AI_MODEL.DEEPSEEK)
             (lookup "prompt" body)) with
  | Normal answer =>
    match completionOf (shapeAnswer tem answer) with
    | Normal rep => Normal rep
    | Throw e => Normal (res_status_json 500 (errorBody (message e)))
    end
  | Throw e => Normal (res_status_json 500 (errorBody (message e)))
  end.
Proof.
  unfold post_deepseek. rewrite completionOf_tryCatch, completionOf_bind.
  destruct (completionOf (chatWithModel _ _ _ _ _)); [|reflexivity].
  now destruct (completionOf _).
Qed.

Lemma post_deepseek_calls (body : object) :
  callsOf (post_deepseek together env tem body) =
  callsOf (chatWithModel together env tem (VString AI_MODEL.DEEPSEEK)
             (lookup "prompt" body)).
Proof.
  unfold post_deepseek.
  rewrite callsOf_tryCatch, callsOf_bind, completionOf_bind.
  destruct (completionOf (chatWithModel _ _ _ _ _)) as [a|];
    simpl; rewrite ?app_nil_r; [|reflexivity].
  rewrite shapeAnswer_calls.
  destruct (completionOf _); simpl; now rewrite ?app_nil_r.
Qed.

Lemma post_flux_completion (body : object) :
  completionOf (post_flux together tem body) =
  match completionOf
          (createImage together tem (VString AI_MODEL.FLUX)
             (lookup "prompt" body)) with
  | Normal result => Normal (res_json (VObject [("result", result)]))
  | Throw e => Normal (res_status_json 500 (errorBody (message e)))
  end.
Proof.
  unfold post_flux. rewrite completionOf_tryCatch, completionOf_bind.
  now destruct (completionOf _).
Qed.

Lemma post_flux_calls (body : object) :
  callsOf (post_flux together tem body) =
  [ImagesCreate
     (imageBody (VString AI_MODEL.FLUX) (lookup "prompt" body) 4)].
Proof.
  unfold post_flux.
  rewrite callsOf_tryCatch, callsOf_bind, completionOf_bind.
  rewrite createImage_flux_calls.
  destruct (completionOf _); simpl; reflexivity.
Qed.

End AdapterFacts.

(* ================================================================== *)
(** ** The claims on the adapter and on the router *)

(** C5.  In both chat operations a prompt that is missing from the request
    body or is the empty string fails with the fault "a prompt is needed"
    of [chatWithModel] (the invalid-request failure) and no call to the
    remote provider is made: the trace of calls is empty, whatever the
    provider would have answered. *)
Theorem C5_empty_prompt_fails_before_call
        (together : call -> outcome) (env : option jsstring)
        (tem : value -> string -> jsstring) (body : object)
        (Hprompt : lookup "prompt" body = VUndefined \/
                   lookup "prompt" body = VString []) :
  (forall model,
     chatWithModel together env tem model (lookup "prompt" body) =
     (Throw {| message := MSG_PROMPT_REQUIRED |}, [])) /\
  post_llama together env tem body =
  (Normal (res_status_json 500 (errorBody MSG_PROMPT_REQUIRED)), []) /\
  post_deepseek together env tem body =
  (Normal (res_status_json 500 (errorBody MSG_PROMPT_REQUIRED)), []).
Proof.
  assert (Hfalsy : ToBoolean (lookup "prompt" body) = false)
    by (destruct Hprompt as [-> | ->]; reflexivity).
  split; [|split].
  - intros model. now apply chatWithModel_falsy.
  - rewrite (M_eq (post_llama _ _ _ _)).
    rewrite post_llama_completion, post_llama_calls.
    now rewrite chatWithModel_falsy.
  - rewrite (M_eq (post_deepseek _ _ _ _)).
    rewrite post_deepseek_completion, post_deepseek_calls.
    now rewrite chatWithModel_falsy.
Qed.

Lemma C5_witness :
  let together :=
    Samples.resolving (Samples.chatCompletion (VString (lit "hello"))) in
  post_llama together None Samples.engineMessage [("prompt", VString [])] =
  (Normal {| status := 500; json := errorBody MSG_PROMPT_REQUIRED |}, []) /\
  post_deepseek together None Samples.engineMessage [] =
  (Normal {| status := 500; json := errorBody MSG_PROMPT_REQUIRED |}, []).
Proof.
  intros together. split.
  - apply (C5_empty_prompt_fails_before_call together None
             Samples.engineMessage [("prompt", VString [])]).
    right. reflexivity.
  - apply (C5_empty_prompt_fails_before_call together None
             Samples.engineMessage []).
    left. reflexivity.
Defined.

(** C6.  For a model other than the supported image model -- a model with
    no case in [getStepsFromModel] -- the step count is not defined: the
    image generation fails with the fault "Not implemented" (the
    unsupported-model failure) and makes no call to the remote provider. *)
Theorem C6_unsupported_model_fails_before_call
        (together : call -> outcome) (tem : value -> string -> jsstring)
        (model prompt : value)
        (Hmodel : model <> VString AI_MODEL.FLUX) :
  getStepsFromModel model = throw {| message := MSG_NOT_IMPLEMENTED |} /\
  createImage together tem model prompt =
  (Throw {| message := MSG_NOT_IMPLEMENTED |}, []).
Proof.
  split; [now apply getSteps_other | now apply createImage_other].
Qed.

Lemma C6_witness :
  let together :=
    Samples.resolving (Samples.imageResult (VString (lit "http://img"))) in
  createImage together Samples.engineMessage
    (VString (lit "stabilityai/stable-diffusion-xl-base-1.0"))
    (VString (lit "a cat")) =
  (Throw {| message := lit "Not implemented" |}, []).
Proof.
  intros together.
  apply (C6_unsupported_model_fails_before_call together
           Samples.engineMessage).
  intros E. vm_compute in E. discriminate E.
Defined.

(** C7.  With the supported image model, image generation makes exactly
    one call to the remote provider, and its request is the model, the
    prompt as received, width 1024, height 1024, n (the count) 1 and
    steps 4: nothing of it but the [prompt] field depends on the prompt.
    So does POST /flux, with the prompt of the request body. *)
Theorem C7_flux_request_parameters
        (together : call -> outcome) (tem : value -> string -> jsstring)
        (prompt : value) (body : object) :
  callsOf (createImage together tem (VString AI_MODEL.FLUX) prompt) =
  [ImagesCreate
     (VObject [("model", VString AI_MODEL.FLUX); ("prompt", prompt);
               ("width", VNumber 1024); ("height", VNumber 1024);
               ("n", VNumber 1); ("steps", VNumber 4)])] /\
  callsOf (post_flux together tem body) =
  [ImagesCreate
     (VObject [("model", VString AI_MODEL.FLUX);
               ("prompt", lookup "prompt" body);
               ("width", VNumber 1024); ("height", VNumber 1024);
               ("n", VNumber 1); ("steps", VNumber 4)])].
Proof.
  split.
  - now rewrite createImage_flux_calls, imageBody_eq.
  - now rewrite post_flux_calls, imageBody_eq.
Qed.

(** C8.  For a prompt that is a non-empty string, each chat operation
    makes exactly one call to the remote provider; its request holds the
    model, the safety-filter model as [safety_model], and a conversation
    of exactly two messages: the system message with the configured
    system message, then the user message with the prompt. *)
Theorem C8_chat_request_conversation
        (together : call -> outcome) (env : option jsstring)
        (tem : value -> string -> jsstring) (body : object)
        (p : jsstring)
        (Hprompt : lookup "prompt" body = VString p)
        (Hnonempty : p <> []) :
  let request model :=
    ChatCompletionsCreate
      (VObject
         [("model", VString model);
          ("safety_model", VString AI_MODEL.GUARD);
          ("messages",
           VArray
             [VObject [("role", VString (lit "system"));
                       ("content", VString (CHAT_SYSTEM_MESSAGE env))];
              VObject [("role", VString (lit "user"));
                       ("content", VString p)]])]) in
  callsOf (post_llama together env tem body) = [request AI_MODEL.LLAMA] /\
  callsOf (post_deepseek together env tem body) =
  [request AI_MODEL.DEEPSEEK].
Proof.
  assert (Htruthy : ToBoolean (lookup "prompt" body) = true)
    by (rewrite Hprompt; destruct p; [congruence | reflexivity]).
  assert (Hconv : toStringFaults (lookup "prompt" body) = false)
    by now rewrite Hprompt.
  intros request. split.
  - rewrite post_llama_calls, chatWithModel_calls by assumption.
    now rewrite Hprompt.
  - rewrite post_deepseek_calls, chatWithModel_calls by assumption.
    now rewrite Hprompt.
Qed.

Lemma C8_witness :
  let together := Samples.rejecting (lit "unavailable") in
  callsOf (post_llama together None Samples.engineMessage
             [("prompt", VString (lit "hi"))]) =
  [ChatCompletionsCreate
     (VObject
        [("model", VString AI_MODEL.LLAMA);
         ("safety_model", VString AI_MODEL.GUARD);
         ("messages",
          VArray
            [VObject [("role", VString (lit "system"));
                      ("content", VString (CHAT_SYSTEM_MESSAGE None))];
             VObject [("role", VString (lit "user"));
                      ("content", VString (lit "hi"))]])])].
Proof.
  intros together.
  assert (Hne : lit "hi" <> [])
    by (intros E; vm_compute in E; discriminate E).
  exact (proj1 (C8_chat_request_conversation together None
                  Samples.engineMessage [("prompt", VString (lit "hi"))]
                  eq_refl Hne)).
Defined.



(** C10.  A fault of image generation reaches the caller with its own
    message: the catch clause of POST /flux replies with the message of
    whatever [createImage] threw -- "Not implemented" for an unsupported
    model, the provider's fault when the call is rejected, the engine's
    fault when the result set is empty.  A fault of the provider under a
    chat operation does not: [chatWithModel] throws its own fixed message
    in its place, and that is what the caller reads.  (A chat call is made
    only for a prompt that is truthy and can be converted to a string.) *)
Theorem C10_image_fault_verbatim_chat_fault_generic
        (together : call -> outcome) (env : option jsstring)
        (tem : value -> string -> jsstring) (body : object) :
  let prompt := lookup "prompt" body in
  let request := ImagesCreate (imageBody (VString AI_MODEL.FLUX) prompt 4) in
  (forall model e,
     completionOf (createImage together tem model prompt) = Throw e ->
     completionOf
       (tryCatch
          (bind (createImage together tem model prompt)
             (fun result => ret (res_json (VObject [("result", result)]))))
          replyError) =
     Normal {| status := 500;
               json := VObject [("error", VString (message e))] |}) /\
  (forall model,
     model <> VString AI_MODEL.FLUX ->
     completionOf (createImage together tem model prompt) =
     Throw {| message := MSG_NOT_IMPLEMENTED |}) /\
  (forall e,
     together request = Rejects e ->
     completionOf (post_flux together tem body) =
     Normal {| status := 500;
               json := VObject [("error", VString (message e))] |}) /\
  (together request = Resolves (VObject [("data", VArray [])]) ->
   completionOf (post_flux together tem body) =
   Normal {| status := 500;
             json := VObject [("error", VString (tem VUndefined "url"))] |})
  /\
  (forall e,
     ToBoolean prompt = true ->
     toStringFaults prompt = false ->
     together
       (ChatCompletionsCreate
          (chatBody env (VString AI_MODEL.LLAMA) prompt)) = Rejects e ->
     completionOf (post_llama together env tem body) =
     Normal {| status := 500;
               json := VObject [("error", VString MSG_MODEL_CALL_FAILED)] |})
  /\
  (forall e,
     ToBoolean prompt = true ->
     toStringFaults prompt = false ->
     together
       (ChatCompletionsCreate
          (chatBody env (VString AI_MODEL.DEEPSEEK) prompt)) = Rejects e ->
     completionOf (post_deepseek together env tem body) =
     Normal {| status := 500;
               json := VObject [("error", VString MSG_MODEL_CALL_FAILED)] |}).
Proof.
  intros prompt request. repeat split.
  - intros model e H.
    now rewrite completionOf_tryCatch, completionOf_bind, H.
  - intros model H. now rewrite createImage_other.
  - intros e H.
    rewrite post_flux_completion, createImage_flux.
    now rewrite (completionOf_await_rejects _ _ H).
  - intros H.
    rewrite post_flux_completion, createImage_flux.
    now rewrite (completionOf_await_resolves _ _ H).
  - intros e Ht Hc H.
    rewrite post_llama_completion. fold prompt.
    now rewrite (@chatWithModel_rejects together env tem _ _ e Ht Hc H).
  - intros e Ht Hc H.
    rewrite post_deepseek_completion. fold prompt.
    now rewrite (@chatWithModel_rejects together env tem _ _ e Ht Hc H).
Qed.

Lemma C10_witness :
  let together := Samples.rejecting (lit "rate limit exceeded") in
  let body := [("prompt", VString (lit "a cat"))] in
  completionOf (post_flux together Samples.engineMessage body) =
  Normal {| status := 500;
            json := VObject [("error",
                              VString (lit "rate limit exceeded"))] |} /\
  completionOf (post_llama together None Samples.engineMessage body) =
  Normal {| status := 500;
            json := VObject [("error", VString MSG_MODEL_CALL_FAILED)] |}.
Proof.
  intros together body.
  pose proof (C10_image_fault_verbatim_chat_fault_generic together None
                Samples.engineMessage body) as (_ & _ & Hflux & _ & Hllama & _).
  split.
  - exact (Hflux {| message := lit "rate limit exceeded" |} eq_refl).
  - exact (Hllama {| message := lit "rate limit exceeded" |}
             eq_refl eq_refl eq_refl).
Defined.

(** The reply of each handler, from the completion of its component. *)
Lemma post_llama_reply (together : call -> outcome) (env : option jsstring)
      (tem : value -> string -> jsstring) (body : object) :
  completionOf (post_llama together env tem body) =
  Normal
    match completionOf
            (chatWithModel together env tem (VString AI_MODEL.LLAMA)
               (lookup "prompt" body)) with
    | Normal answer => res_json (VObject [("answer", answer)])
    | Throw e => res_status_json 500 (errorBody (message e))
    end.
Proof. rewrite post_llama_completion. now destruct (completionOf _). Qed.

Lemma post_deepseek_reply (together : call -> outcome)
      (env : option jsstring) (tem : value -> string -> jsstring)
      (body : object) :
  completionOf (post_deepseek together env tem body) =
  Normal
    match completionOf
            (chatWithModel together env tem (VString AI_MODEL.DEEPSEEK)
               (lookup "prompt" body)) with
    | Normal answer =>
      match completionOf (shapeAnswer tem answer) with
      | Normal rep => rep
      | Throw e => res_status_json 500 (errorBody (message e))
      end
    | Throw e => res_status_json 500 (errorBody (message e))
    end.
Proof.
  rewrite post_deepseek_completion.
  destruct (completionOf (chatWithModel _ _ _ _ _)); [|reflexivity].
  now destruct (completionOf _).
Qed.

Lemma post_flux_reply (together : call -> outcome)
      (tem : value -> string -> jsstring) (body : object) :
  completionOf (post_flux together tem body) =
  Normal
    match completionOf
            (createImage together tem (VString AI_MODEL.FLUX)
               (lookup "prompt" body)) with
    | Normal result => res_json (VObject [("result", result)])
    | Throw e => res_status_json 500 (errorBody (message e))
    end.
Proof. rewrite post_flux_completion. now destruct (completionOf _). Qed.

(** C3, as stated, fails for the request problem: a missing or empty
    prompt is answered under the status 500, which is not in the
    client-error class.  At the body with the empty prompt, POST /llama
    replies 500 with the message of the invalid-request fault. *)
Lemma C3_counterexample :
  let together :=
    Samples.resolving (Samples.chatCompletion (VString (lit "hello"))) in
  let body := [("prompt", VString [])] in
  ToBoolean (lookup "prompt" body) = false /\
  post_llama together None Samples.engineMessage body =
  (Normal {| status := 500;
             json := VObject [("error", VString MSG_PROMPT_REQUIRED)] |},
   []) /\
  isClientError 500 = false.
Proof. repeat split. Qed.

(** C3, amended.  Every run of one of the three router operations ends in
    a reply, and a reply that reports a failure is a structured error
    object (one [error] property with the message).  A format problem
    (the reasoning chat answered a text the pattern does not match) is
    answered under the status 400, in the client-error class, and nothing
    else is.  Every fault thrown on the way is answered under the status
    500, in the server-error class: an upstream failure of the provider,
    and also a request problem, the missing or empty prompt of a chat
    operation. *)
Theorem C3_failure_reply_status
        (together : call -> outcome) (env : option jsstring)
        (tem : value -> string -> jsstring)
        (op : operation) (body : object) :
  let prompt := lookup "prompt" body in
  exists rep,
    completionOf (route together env tem op body) = Normal rep /\
    (status rep = 200%Z \/
     (status rep = 400%Z /\ op = Deepseek /\
      json rep = VObject [("error", VString MSG_BAD_FORMAT)] /\
      exists s,
        completionOf
          (chatWithModel together env tem (VString AI_MODEL.DEEPSEEK)
             prompt) = Normal (VString s) /\
        RegExp.exec regex s = None) \/
     (status rep = 500%Z /\
      exists msg, json rep = VObject [("error", VString msg)])) /\
    (forall s,
       op = Deepseek ->
       completionOf
         (chatWithModel together env tem (VString AI_MODEL.DEEPSEEK)
            prompt) = Normal (VString s) ->
       RegExp.exec regex s = None ->
       status rep = 400%Z /\ isClientError (status rep) = true /\
       json rep = VObject [("error", VString MSG_BAD_FORMAT)]) /\
    (op <> Flux -> ToBoolean prompt = false ->
     status rep = 500%Z /\ isServerError (status rep) = true /\
     json rep = VObject [("error", VString MSG_PROMPT_REQUIRED)]) /\
    (forall model e,
       (op = Llama /\ model = AI_MODEL.LLAMA) \/
       (op = Deepseek /\ model = AI_MODEL.DEEPSEEK) ->
       ToBoolean prompt = true ->
       toStringFaults prompt = false ->
       together (ChatCompletionsCreate (chatBody env (VString model) prompt))
       = Rejects e ->
       status rep = 500%Z /\ isServerError (status rep) = true /\
       json rep = VObject [("error", VString MSG_MODEL_CALL_FAILED)]) /\
    (forall e,
       op = Flux ->
       together
         (ImagesCreate (imageBody (VString AI_MODEL.FLUX) prompt 4))
       = Rejects e ->
       status rep = 500%Z /\ isServerError (status rep) = true /\
       json rep = VObject [("error", VString (message e))]).
Proof.
  intros prompt. destruct op; cbn [route].
  - (* POST /llama *)
    rewrite post_llama_reply. fold prompt.
    eexists. split; [reflexivity|]. split; [|split; [|split; [|split]]].
    + destruct (completionOf
                  (chatWithModel together env tem (VString AI_MODEL.LLAMA)
                     prompt)) as [a|e].
      * now left.
      * right; right. split; [reflexivity|now eexists].
    + intros s Hop. discriminate Hop.
    + intros _ Hf. rewrite chatWithModel_falsy by exact Hf.
      repeat split.
    + intros model e [[_ ->]|[Hop _]] Ht Hc Hrej; [|discriminate Hop].
      rewrite (@chatWithModel_rejects together env tem _ _ e Ht Hc Hrej).
      repeat split.
    + intros e Hop. discriminate Hop.
  - (* POST /deepseek *)
    rewrite post_deepseek_reply. fold prompt.
    eexists. split; [reflexivity|]. split; [|split; [|split; [|split]]].
    + destruct (completionOf
                  (chatWithModel together env tem (VString AI_MODEL.DEEPSEEK)
                     prompt)) as [a|e].
      * destruct (shapeAnswer_cases tem a)
          as [(rep & Hrep & Hst) | [(Hrep & s & -> & Hex) | (e & Hrep)]];
          rewrite Hrep.
        -- now left.
        -- right; left. repeat split. now exists s.
        -- right; right. split; [reflexivity|now eexists].
      * right; right. split; [reflexivity|now eexists].
    + intros s _ Hchat Hex. rewrite Hchat.
      rewrite (shapeAnswer_no_match tem _ Hex). repeat split.
    + intros _ Hf. rewrite chatWithModel_falsy by exact Hf.
      repeat split.
    + intros model e [[Hop _]|[_ ->]] Ht Hc Hrej; [discriminate Hop|].
      rewrite (@chatWithModel_rejects together env tem _ _ e Ht Hc Hrej).
      repeat split.
    + intros e Hop. discriminate Hop.
  - (* POST /flux *)
    rewrite post_flux_reply. fold prompt.
    eexists. split; [reflexivity|]. split; [|split; [|split; [|split]]].
    + destruct (completionOf
                  (createImage together tem (VString AI_MODEL.FLUX) prompt))
        as [a|e].
      * now left.
      * right; right. split; [reflexivity|now eexists].
    + intros s Hop. discriminate Hop.
    + intros Hop. now contradiction Hop.
    + intros model e [[Hop _]|[Hop _]]; discriminate Hop.
    + intros e _ Hrej. rewrite createImage_flux.
      rewrite (completionOf_await_rejects _ _ Hrej). repeat split.
Qed.

Lemma C3_witness :
  let together :=
    Samples.resolving
      (Samples.chatCompletion (VString (lit "no reasoning here"))) in
  (exists rep,
     completionOf
       (route together None Samples.engineMessage Llama []) = Normal rep /\
     status rep = 500%Z /\
     json rep = VObject [("error", VString MSG_PROMPT_REQUIRED)]) /\
  (exists rep,
     completionOf
       (route together None Samples.engineMessage Deepseek
          [("prompt", VString (lit "why?"))]) = Normal rep /\
     status rep = 400%Z /\
     json rep = VObject [("error", VString MSG_BAD_FORMAT)]).
Proof.
  intros together. split.
  - destruct (C3_failure_reply_status together None Samples.engineMessage
                Llama []) as (rep & Hrep & _ & _ & Hinvalid & _).
    exists rep. split; [exact Hrep|].
    destruct Hinvalid as (Hs & _ & Hj); [discriminate | reflexivity |].
    now split.
  - destruct (C3_failure_reply_status together None Samples.engineMessage
                Deepseek [("prompt", VString (lit "why?"))])
      as (rep & Hrep & _ & Hformat & _).
    exists rep. split; [exact Hrep|].
    destruct (Hformat (lit "no reasoning here") eq_refl eq_refl eq_refl)
      as (Hs & _ & Hj).
    now split.
Defined.

(* ================================================================== *)
(** ** Further facts on [trim] *)

Module TrimFacts.

Import JsString StringFacts.
Local Open Scope list_scope.

(** [trimStart] drops a run of blank characters from the front. *)
Lemma trimStart_split (s : jsstring) :
  exists l, s = l ++ trimStart s /\ forallb isTrimmed l = true.
Proof.
  induction s as [|c s IH]; [now exists []|].
  simpl. destruct (isTrimmed c) eqn:E.
  - destruct IH as (l & Hs & Hl). exists (c :: l). split.
    + simpl. now rewrite <- Hs.
    + simpl. now rewrite E.
  - now exists [].
Qed.

Lemma trimStart_head (s : jsstring) (c : N) (r : jsstring) :
  trimStart s = c :: r -> isTrimmed c = false.
Proof.
  induction s as [|x s IH]; [discriminate|].
  simpl. destruct (isTrimmed x) eqn:E; [exact IH|].
  intros [= <- _]. exact E.
Qed.

(** [trimEnd] drops a run of blank characters from the back. *)
Lemma trimEnd_split (s : jsstring) :
  exists r, s = trimEnd s ++ r /\ forallb isTrimmed r = true.
Proof.
  unfold trimEnd.
  destruct (trimStart_split (rev s)) as (l & Hs & Hl).
  exists (rev l). split.
  - rewrite <- rev_app_distr, <- Hs. now rewrite rev_involutive.
  - rewrite forallb_forall in *. intros x Hx. apply Hl.
    now apply in_rev.
Qed.

Lemma trimEnd_last (s r : jsstring) (c : N) :
  trimEnd s = r ++ [c] -> isTrimmed c = false.
Proof.
  unfold trimEnd. intros H.
  apply (f_equal (@rev N)) in H.
  rewrite rev_involutive, rev_app_distr in H. simpl in H.
  exact (trimStart_head _ H).
Qed.

(** The trimmed string sits inside the string, between two blank runs. *)
Lemma trim_split (s : jsstring) :
  exists l r, s = l ++ trim s ++ r /\
              forallb isTrimmed l = true /\ forallb isTrimmed r = true.
Proof.
  unfold trim.
  destruct (trimStart_split s) as (l & Hs & Hl).
  destruct (trimEnd_split (trimStart s)) as (r & Hr & Hr').
  exists l, r. repeat split; auto.
  now rewrite <- Hr.
Qed.

Lemma trim_head (s : jsstring) (c : N) (r : jsstring) :
  trim s = c :: r -> isTrimmed c = false.
Proof.
  unfold trim. intros H.
  destruct (trimEnd_split (trimStart s)) as (r' & Hr & _).
  rewrite H in Hr. simpl in Hr.
  exact (trimStart_head _ Hr).
Qed.

Lemma trim_last (s r : jsstring) (c : N) :
  trim s = r ++ [c] -> isTrimmed c = false.
Proof. unfold trim. apply trimEnd_last. Qed.

(** What the string is free of, the trimmed string is free of. *)
Lemma trim_includes_false (p s : jsstring) :
  includes p s = false -> includes p (trim s) = false.
Proof.
  intros H. destruct (trim_split s) as (l & r & Hs & _).
  rewrite Hs in H.
  apply includes_app_false_r in H. now apply includes_app_false_l in H.
Qed.

End TrimFacts.

(* ================================================================== *)
(** ** Further facts on the adapter *)

Section ReadingFacts.

Variable together : call -> outcome.
Variable env : option jsstring.
Variable tem : value -> string -> jsstring.

(** The answer of [chatWithModel] is the content of the first choice. *)
Lemma chatWithModel_first_choice (model prompt : value)
      (o ch m : object) (others : list value) :
  ToBoolean prompt = true ->
  toStringFaults prompt = false ->
  together (ChatCompletionsCreate (chatBody env model prompt)) =
  Resolves (VObject o) ->
  lookup "choices" o = VArray (VObject ch :: others) ->
  lookup "message" ch = VObject m ->
  completionOf (chatWithModel together env tem model prompt) =
  Normal (lookup "content" m).
Proof.
  intros Ht Hconv Hres Hc Hm.
  rewrite (@chatWithModel_guarded together env tem model prompt Ht Hconv).
  rewrite completionOf_tryCatch, (completionOf_await_resolves _ _ Hres).
  rewrite completionOf_bind. cbn [completionOf get ret fst]. rewrite Hc.
  rewrite completionOf_bind. cbn [completionOf getFirst ret fst nth].
  rewrite completionOf_bind. cbn [completionOf get ret fst]. rewrite Hm.
  reflexivity.
Qed.

(** No first choice: the fixed fault of [chatWithModel]. *)
Lemma chatWithModel_no_choice (model prompt : value) (o : object) :
  ToBoolean prompt = true ->
  toStringFaults prompt = false ->
  together (ChatCompletionsCreate (chatBody env model prompt)) =
  Resolves (VObject o) ->
  lookup "choices" o = VArray [] \/ lookup "choices" o = VUndefined ->
  completionOf (chatWithModel together env tem model prompt) =
  Throw {| message := MSG_MODEL_CALL_FAILED |}.
Proof.
  intros Ht Hconv Hres Hc.
  rewrite (@chatWithModel_guarded together env tem model prompt Ht Hconv).
  rewrite completionOf_tryCatch, (completionOf_await_resolves _ _ Hres).
  rewrite completionOf_bind. cbn [completionOf get ret fst].
  destruct Hc as [-> | ->]; reflexivity.
Qed.

(** The result of [createImage] is the URL of the first image. *)
Lemma createImage_first_image (prompt : value) (o img : object)
      (others : list value) :
  together (ImagesCreate (imageBody (VString AI_MODEL.FLUX) prompt 4)) =
  Resolves (VObject o) ->
  lookup "data" o = VArray (VObject img :: others) ->
  completionOf (createImage together tem (VString AI_MODEL.FLUX) prompt) =
  Normal (lookup "url" img).
Proof.
  intros Hres Hd. rewrite createImage_flux.
  rewrite (completionOf_await_resolves _ _ Hres).
  rewrite completionOf_bind. cbn [completionOf get ret fst]. rewrite Hd.
  reflexivity.
Qed.

(** The shaping of a text never faults: both groups take part in every
    match. *)
Lemma shapeAnswer_string (s : jsstring) :
  (exists inner trailing,
     RegExp.exec regex s <> None /\
     shapeAnswer tem (VString s) =
     ret (res_json (VObject [("think", VString (trim inner));
                             ("say", VString (trim trailing))])) /\
     includes THINK_CLOSE inner = false) \/
  (RegExp.exec regex s = None /\
   shapeAnswer tem (VString s) =
   ret (res_status_json 400 (errorBody MSG_BAD_FORMAT))).
Proof.
  destruct (RegExp.exec regex s) as [arr|] eqn:E.
  - left.
    destruct (exec_some_shape _ E) as (p & i & t & -> & Hp & Hi & _).
    exists i, t. repeat split; [discriminate | | exact Hi].
    now apply shapeAnswer_match.
  - right. split; [reflexivity|]. now apply shapeAnswer_no_match.
Qed.

(** Only arrays and objects can fail to convert, and they are truthy. *)
Lemma toStringFaults_truthy (v : value) :
  toStringFaults v = true -> ToBoolean v = true.
Proof. destruct v; try discriminate; reflexivity. Qed.

Lemma shapeAnswer_not_string (answer : value) :
  (forall s, answer <> VString s) ->
  shapeAnswer tem answer = throw (TypeError tem answer "match").
Proof.
  intros H. destruct answer; try reflexivity. now contradiction (H s).
Qed.

End ReadingFacts.

(* ================================================================== *)
(** ** Further properties of the handlers *)

(** X1.  A prompt that cannot be converted to a string -- an object with
    an own [toString] property, or an array that holds one -- passes the
    test of the prompt and then faults in the template literal of the
    logged line, before the call and outside the [try]: both chat handlers
    reply 500 with the engine's message for that fault and make no call to
    the provider.  POST /flux, which never converts the prompt, makes its
    call with that prompt all the same. *)
Theorem X1_unconvertible_prompt_faults_before_call
        (together : call -> outcome) (env : option jsstring)
        (tem : value -> string -> jsstring) (body : object)
        (Hfaults : toStringFaults (lookup "prompt" body) = true) :
  let prompt := lookup "prompt" body in
  post_llama together env tem body =
  (Normal {| status := 500;
             json := VObject [("error", VString (tem prompt "toString"))] |},
   []) /\
  post_deepseek together env tem body =
  (Normal {| status := 500;
             json := VObject [("error", VString (tem prompt "toString"))] |},
   []) /\
  callsOf (post_flux together tem body) =
  [ImagesCreate (imageBody (VString AI_MODEL.FLUX) prompt 4)].
Proof.
  intros prompt.
  pose proof (toStringFaults_truthy _ Hfaults) as Ht.
  split; [|split].
  - rewrite (M_eq (post_llama _ _ _ _)).
    rewrite post_llama_completion, post_llama_calls.
    now rewrite (@chatWithModel_unconvertible together env tem _ _ Ht Hfaults).
  - rewrite (M_eq (post_deepseek _ _ _ _)).
    rewrite post_deepseek_completion, post_deepseek_calls.
    now rewrite (@chatWithModel_unconvertible together env tem _ _ Ht Hfaults).
  - apply post_flux_calls.
Qed.

Lemma X1_witness :
  let together :=
    Samples.resolving (Samples.chatCompletion (VString (lit "hello"))) in
  let body :=
    [("prompt", VArray [VNumber 1; VObject [("toString", VNumber 1)]])] in
  post_llama together None Samples.engineMessage body =
  (Normal {| status := 500;
             json :=
               VObject
                 [("error",
                   VString
                     (lit "Cannot convert object to primitive value"))] |},
   []).
Proof.
  intros together body.
  rewrite (proj1 (X1_unconvertible_prompt_faults_before_call together None
                    Samples.engineMessage body eq_refl)).
  vm_compute. reflexivity.
Defined.

(** X2.  For a prompt that is truthy and can be converted to a string,
    POST /llama answers with the content of the first choice of the
    provider's payload and nothing else of it: further choices and further
    properties are ignored, and the content is passed on as it is (a
    choice whose message has no content gives an [answer] that is
    undefined, under the status 200). *)
Theorem X2_llama_answers_first_choice
        (together : call -> outcome) (env : option jsstring)
        (tem : value -> string -> jsstring) (body : object)
        (o ch m : object) (others : list value)
        (Htruthy : ToBoolean (lookup "prompt" body) = true)
        (Hconv : toStringFaults (lookup "prompt" body) = false)
        (Hres :
           together
             (ChatCompletionsCreate
                (chatBody env (VString AI_MODEL.LLAMA)
                   (lookup "prompt" body))) = Resolves (VObject o))
        (Hchoices : lookup "choices" o = VArray (VObject ch :: others))
        (Hmessage : lookup "message" ch = VObject m) :
  post_llama together env tem body =
  (Normal (res_json (VObject [("answer", lookup "content" m)])),
   [ChatCompletionsCreate
      (chatBody env (VString AI_MODEL.LLAMA) (lookup "prompt" body))]).
Proof.
  rewrite (M_eq (post_llama _ _ _ _)).
  rewrite post_llama_calls, chatWithModel_calls by assumption.
  rewrite post_llama_completion.
  now rewrite (@chatWithModel_first_choice together env tem _ _ _ _ _ _
                 Htruthy Hconv Hres Hchoices Hmessage).
Qed.

Lemma X2_witness :
  let payload :=
    VObject
      [("id", VString (lit "cmpl-1"));
       ("choices",
        VArray
          [VObject [("index", VNumber 0);
                    ("message",
                     VObject [("role", VString (lit "assistant"));
                              ("content", VString (lit "first"))])];
           VObject [("index", VNumber 1);
                    ("message",
                     VObject [("role", VString (lit "assistant"));
                              ("content", VString (lit "second"))])]])] in
  completionOf
    (post_llama (Samples.resolving payload) None Samples.engineMessage
       [("prompt", VString (lit "hi"))]) =
  Normal {| status := 200;
            json := VObject [("answer", VString (lit "first"))] |}.
Proof.
  intros payload.
  rewrite (X2_llama_answers_first_choice (Samples.resolving payload) None
             Samples.engineMessage [("prompt", VString (lit "hi"))]
             (o := [("id", VString (lit "cmpl-1"));
                    ("choices",
                     VArray
                       [VObject [("index", VNumber 0);
                                 ("message",
                                  VObject [("role", VString (lit "assistant"));
                                           ("content", VString (lit "first"))])];
                        VObject [("index", VNumber 1);
                                 ("message",
                                  VObject [("role", VString (lit "assistant"));
                                           ("content",
                                            VString (lit "second"))])]])])
             eq_refl eq_refl eq_refl eq_refl eq_refl).
  reflexivity.
Defined.

(** X3.  No handler replies with the provider's payload as it is: every
    reply is either the operation's own success object under the status
    200 -- [answer] for /llama, [think] and [say], both strings, for
    /deepseek, [result] for /flux -- or an error object under the status
    400 or 500. *)
Theorem X3_reply_is_shaped
        (together : call -> outcome) (env : option jsstring)
        (tem : value -> string -> jsstring)
        (op : operation) (body : object) :
  exists rep,
    completionOf (route together env tem op body) = Normal rep /\
    ((status rep = 200%Z /\
      match op with
      | Llama => exists a, json rep = VObject [("answer", a)]
      | Deepseek =>
        exists t u,
          json rep = VObject [("think", VString t); ("say", VString u)]
      | Flux => exists v, json rep = VObject [("result", v)]
      end) \/
     ((status rep = 400%Z \/ status rep = 500%Z) /\
      exists msg, json rep = errorBody msg)).
Proof.
  destruct op; cbn [route].
  - rewrite post_llama_completion.
    destruct (completionOf
                (chatWithModel together env tem (VString AI_MODEL.LLAMA)
                   (lookup "prompt" body))) as [a|e];
      eexists; (split; [reflexivity|]).
    + left. split; [reflexivity|now exists a].
    + right. split; [now right|now eexists].
  - rewrite post_deepseek_completion.
    destruct (completionOf
                (chatWithModel together env tem (VString AI_MODEL.DEEPSEEK)
                   (lookup "prompt" body))) as [a|e].
    + assert (Hns : (exists s, a = VString s) \/
                    (forall s, a <> VString s))
        by (destruct a; try (right; discriminate); left; now eexists).
      destruct Hns as [[s ->] | Hns].
      * destruct (shapeAnswer_string tem s)
          as [(i & t & _ & -> & _) | (_ & ->)];
          eexists; (split; [reflexivity|]).
        -- left. split; [reflexivity|now eexists; eexists].
        -- right. split; [now left|now eexists].
      * rewrite (@shapeAnswer_not_string tem a Hns).
        eexists; (split; [reflexivity|]).
        right. split; [now right|now eexists].
    + eexists; (split; [reflexivity|]).
      right. split; [now right|now eexists].
  - rewrite post_flux_completion.
    destruct (completionOf
                (createImage together tem (VString AI_MODEL.FLUX)
                   (lookup "prompt" body))) as [a|e];
      eexists; (split; [reflexivity|]).
    + left. split; [reflexivity|now exists a].
    + right. split; [now right|now eexists].
Qed.

(** X4.  For a prompt that is truthy and can be converted to a string, a
    payload without a first choice -- an empty [choices] array, or no
    [choices] at all -- is an upstream failure of the chat: both chat
    handlers reply 500 with the fixed message of [chatWithModel], after
    their one call. *)
Theorem X4_no_choice_is_upstream_failure
        (together : call -> outcome) (env : option jsstring)
        (tem : value -> string -> jsstring)
        (op : operation) (model : jsstring) (body o : object)
        (Hop : (op = Llama /\ model = AI_MODEL.LLAMA) \/
               (op = Deepseek /\ model = AI_MODEL.DEEPSEEK))
        (Htruthy : ToBoolean (lookup "prompt" body) = true)
        (Hconv : toStringFaults (lookup "prompt" body) = false)
        (Hres :
           together
             (ChatCompletionsCreate
                (chatBody env (VString model) (lookup "prompt" body))) =
           Resolves (VObject o))
        (Hchoices : lookup "choices" o = VArray [] \/
                    lookup "choices" o = VUndefined) :
  route together env tem op body =
  (Normal {| status := 500;
             json := VObject [("error", VString MSG_MODEL_CALL_FAILED)] |},
   [ChatCompletionsCreate
      (chatBody env (VString model) (lookup "prompt" body))]).
Proof.
  destruct Hop as [[-> ->] | [-> ->]]; cbn [route].
  - rewrite (M_eq (post_llama _ _ _ _)).
    rewrite post_llama_calls, chatWithModel_calls by assumption.
    rewrite post_llama_completion.
    now rewrite (@chatWithModel_no_choice together env tem _ _ _
                   Htruthy Hconv Hres Hchoices).
  - rewrite (M_eq (post_deepseek _ _ _ _)).
    rewrite post_deepseek_calls, chatWithModel_calls by assumption.
    rewrite post_deepseek_completion.
    now rewrite (@chatWithModel_no_choice together env tem _ _ _
                   Htruthy Hconv Hres Hchoices).
Qed.

Lemma X4_witness :
  let together := Samples.resolving (VObject [("choices", VArray [])]) in
  completionOf
    (route together None Samples.engineMessage Deepseek
       [("prompt", VString (lit "hi"))]) =
  Normal {| status := 500;
            json := VObject [("error", VString MSG_MODEL_CALL_FAILED)] |}.
Proof.
  intros together.
  rewrite (X4_no_choice_is_upstream_failure together None
             Samples.engineMessage
             (op := Deepseek) (model := AI_MODEL.DEEPSEEK)
             [("prompt", VString (lit "hi"))]
             (o := [("choices", VArray [])])
             (or_intror (conj eq_refl eq_refl)) eq_refl eq_refl eq_refl
             (or_introl eq_refl)).
  reflexivity.
Defined.

(** X5.  The shaping of a text never faults: whatever the text, it ends
    in the reply of status 200 with two string fields, or in the format
    error of status 400.  In a match both groups take part, so that
    neither call of [trim] is on undefined. *)
Theorem X5_shaping_a_text_never_faults
        (tem : value -> string -> jsstring) (s : jsstring) :
  exists rep,
    shapeAnswer tem (VString s) = ret rep /\
    ((status rep = 200%Z /\
      exists t u,
        json rep = VObject [("think", VString t); ("say", VString u)]) \/
     rep = res_status_json 400 (errorBody MSG_BAD_FORMAT)).
Proof.
  destruct (shapeAnswer_string tem s) as [(i & t & _ & H & _) | (_ & H)];
    rewrite H; eexists; (split; [reflexivity|]).
  - left. split; [reflexivity|now eexists; eexists].
  - now right.
Qed.

(** X6.  When the chat answers something that is not a string (a null
    content, say), POST /deepseek faults on [answer.match] and replies 500
    with the engine's message for that fault -- not the format error, and
    not the fixed message of [chatWithModel]. *)
Theorem X6_deepseek_content_not_a_string
        (together : call -> outcome) (env : option jsstring)
        (tem : value -> string -> jsstring) (body : object)
        (answer : value)
        (Hchat :
           completionOf
             (chatWithModel together env tem (VString AI_MODEL.DEEPSEEK)
                (lookup "prompt" body)) = Normal answer)
        (Hnot : forall s, answer <> VString s) :
  completionOf (post_deepseek together env tem body) =
  Normal (res_status_json 500 (errorBody (tem answer "match"))).
Proof.
  rewrite post_deepseek_completion, Hchat.
  now rewrite (@shapeAnswer_not_string tem answer Hnot).
Qed.

Lemma X6_witness :
  let together := Samples.resolving (Samples.chatCompletion VNull) in
  completionOf
    (post_deepseek together None Samples.engineMessage
       [("prompt", VString (lit "hi"))]) =
  Normal {| status := 500;
            json :=
              errorBody
                (lit "Cannot read properties of null (reading 'match')") |}.
Proof.
  intros together.
  rewrite (X6_deepseek_content_not_a_string together None
             Samples.engineMessage [("prompt", VString (lit "hi"))]
             (answer := VNull) eq_refl);
    [reflexivity | discriminate].
Defined.

(** X7.  What the text holds before its first open tag never reaches the
    reply: a text with such a preamble is matched, and shaped, as the text
    without it -- whether the rest is matched or not. *)
Theorem X7_preamble_is_discarded
        (tem : value -> string -> jsstring) (pre rest : jsstring)
        (Hpre : includes THINK_OPEN pre = false) :
  RegExp.exec regex (pre ++ THINK_OPEN ++ rest) =
  RegExp.exec regex (THINK_OPEN ++ rest) /\
  shapeAnswer tem (VString (pre ++ THINK_OPEN ++ rest)) =
  shapeAnswer tem (VString (THINK_OPEN ++ rest)).
Proof.
  assert (H : RegExp.exec regex (pre ++ THINK_OPEN ++ rest) =
              RegExp.exec regex (THINK_OPEN ++ rest)).
  { apply exec_skip. intros a x b E. apply matchAt_no_open.
    rewrite THINK_OPEN_eq in *.
    apply (@no_early_start 60 _ pre) with (a := a); auto.
    simpl. intros F. repeat destruct F as [F|F]; try discriminate; auto. }
  split; [exact H|].
  unfold shapeAnswer, stringMatch. cbn [bind ret]. now rewrite H.
Qed.

Lemma X7_witness :
  let pre := lit "Sure! <b>note</b> " in
  let rest := lit "plan</think>done" in
  includes THINK_OPEN pre = false /\
  shapeAnswer Samples.engineMessage (VString (pre ++ THINK_OPEN ++ rest)) =
  ret (res_json (VObject [("think", VString (lit "plan"));
                          ("say", VString (lit "done"))])).
Proof.
  intros pre rest. split; [reflexivity|].
  rewrite (proj2 (X7_preamble_is_discarded Samples.engineMessage pre rest
                    eq_refl)).
  reflexivity.
Defined.

(** X8.  In a reply of status 200 of the shaping, neither field begins or
    ends with a blank (white space or line terminator), and the [think]
    field holds no close tag. *)
Theorem X8_fields_are_trimmed
        (tem : value -> string -> jsstring) (s : jsstring) (rep : reply)
        (Hrep : shapeAnswer tem (VString s) = ret rep)
        (Hok : status rep = 200%Z) :
  exists t u,
    json rep = VObject [("think", VString t); ("say", VString u)] /\
    (forall c r, t = c :: r -> isTrimmed c = false) /\
    (forall r c, t = r ++ [c] -> isTrimmed c = false) /\
    (forall c r, u = c :: r -> isTrimmed c = false) /\
    (forall r c, u = r ++ [c] -> isTrimmed c = false) /\
    includes THINK_CLOSE t = false.
Proof.
  destruct (shapeAnswer_string tem s) as [(i & t & _ & H & Hi) | (_ & H)];
    rewrite H in Hrep; injection Hrep as <-.
  - exists (trim i), (trim t). split; [reflexivity|].
    repeat split.
    + intros c r E. exact (@TrimFacts.trim_head _ _ _ E).
    + intros r c E. exact (@TrimFacts.trim_last _ _ _ E).
    + intros c r E. exact (@TrimFacts.trim_head _ _ _ E).
    + intros r c E. exact (@TrimFacts.trim_last _ _ _ E).
    + now apply TrimFacts.trim_includes_false.
  - discriminate Hok.
Qed.

Lemma X8_witness :
  let s := lit "<think>  a b  </think>  c  " in
  let rep := res_json (VObject [("think", VString (lit "a b"));
                                ("say", VString (lit "c"))]) in
  shapeAnswer Samples.engineMessage (VString s) = ret rep /\
  status rep = 200%Z /\
  exists t u,
    json rep = VObject [("think", VString t); ("say", VString u)] /\
    (forall c r, t = c :: r -> isTrimmed c = false) /\
    includes THINK_CLOSE t = false.
Proof.
  intros s rep. split; [reflexivity|]. split; [reflexivity|].
  destruct (X8_fields_are_trimmed Samples.engineMessage s (rep := rep)
              eq_refl eq_refl) as (t & u & Hj & Hh & _ & _ & _ & Hc).
  now exists t, u.
Defined.

(** X9.  The shaping replies with the format error exactly when the text
    does not hold the open tag followed, somewhere later, by the close
    tag; so it does, in particular, for every text without a close tag --
    a reasoning segment that is opened and never closed. *)
Theorem X9_format_error_iff_no_tag_pair
        (tem : value -> string -> jsstring) (s : jsstring) :
  (shapeAnswer tem (VString s) =
   ret (res_status_json 400 (errorBody MSG_BAD_FORMAT)) <->
   ~ (exists a b c, s = a ++ THINK_OPEN ++ b ++ THINK_CLOSE ++ c)) /\
  (includes THINK_CLOSE s = false ->
   shapeAnswer tem (VString s) =
   ret (res_status_json 400 (errorBody MSG_BAD_FORMAT))).
Proof.
  assert (Hiff : shapeAnswer tem (VString s) =
                 ret (res_status_json 400 (errorBody MSG_BAD_FORMAT)) <->
                 ~ (exists a b c,
                       s = a ++ THINK_OPEN ++ b ++ THINK_CLOSE ++ c)).
  { split.
    - intros H (a & b & c & ->).
      destruct (shapeAnswer_string tem
                  (a ++ THINK_OPEN ++ b ++ THINK_CLOSE ++ c))
        as [(i & t & _ & H' & _) | (Hnone & _)].
      + rewrite H' in H. discriminate H.
      + revert Hnone. apply exec_some_if, matchAt_some_if.
    - intros Hno. apply shapeAnswer_no_match.
      destruct (RegExp.exec regex s) as [m|] eqn:E; [exfalso|reflexivity].
      destruct (exec_some_shape _ E) as (p & i & t & -> & _).
      apply Hno. now exists p, i, t. }
  split; [exact Hiff|].
  intros Hc. apply Hiff. intros (a & b & c & ->).
  assert (Ht : includes THINK_CLOSE
                 (a ++ THINK_OPEN ++ b ++ THINK_CLOSE ++ c) = true).
  { apply includes_true_iff. exists (a ++ THINK_OPEN ++ b), c.
    now rewrite <- !app_assoc. }
  congruence.
Qed.

Lemma X9_witness :
  let s := lit "<think>still thinking, and the text ends here" in
  shapeAnswer Samples.engineMessage (VString s) =
  ret {| status := 400; json := errorBody MSG_BAD_FORMAT |}.
Proof.
  intros s.
  exact (proj2 (X9_format_error_iff_no_tag_pair Samples.engineMessage s)
           eq_refl).
Defined.

(** X10.  POST /flux replies with the URL of the first image of the
    provider's payload, for every prompt: further images and further
    properties are ignored, and the URL is passed on as it is (an image
    without [url] gives a [result] that is undefined, under the status
    200). *)
Theorem X10_flux_replies_first_image
        (together : call -> outcome) (tem : value -> string -> jsstring)
        (body o img : object) (others : list value)
        (Hres :
           together
             (ImagesCreate
                (imageBody (VString AI_MODEL.FLUX)
                   (lookup "prompt" body) 4)) = Resolves (VObject o))
        (Hdata : lookup "data" o = VArray (VObject img :: others)) :
  post_flux together tem body =
  (Normal (res_json (VObject [("result", lookup "url" img)])),
   [ImagesCreate
      (imageBody (VString AI_MODEL.FLUX) (lookup "prompt" body) 4)]).
Proof.
  rewrite (M_eq (post_flux _ _ _)).
  rewrite post_flux_calls, post_flux_completion.
  now rewrite (@createImage_first_image together tem _ _ _ _ Hres Hdata).
Qed.

Lemma X10_witness :
  let payload :=
    VObject [("id", VString (lit "img-1"));
             ("data", VArray [VObject [("index", VNumber 0)];
                              VObject [("url", VString (lit "http://b"))]])] in
  completionOf
    (post_flux (Samples.resolving payload) Samples.engineMessage
       [("prompt", VString (lit "a cat"))]) =
  Normal {| status := 200; json := VObject [("result", VUndefined)] |}.
Proof.
  intros payload.
  rewrite (X10_flux_replies_first_image (Samples.resolving payload)
             Samples.engineMessage [("prompt", VString (lit "a cat"))]
             (o := [("id", VString (lit "img-1"));
                    ("data",
                     VArray [VObject [("index", VNumber 0)];
                             VObject [("url", VString (lit "http://b"))]])])
             eq_refl eq_refl).
  reflexivity.
Defined.

(** X11.  An error reply of POST /llama never carries the provider's
    text, nor the engine's fault on the provider's payload.  Its message
    is decided by the prompt: the prompt-required message exactly when the
    prompt is falsy, the engine's message for the failed conversion when
    the prompt is truthy and cannot be converted to a string, and the fixed
    call-failed message for every failure of a prompt that is truthy and
    can be converted. *)
Theorem X11_llama_error_messages_are_fixed
        (together : call -> outcome) (env : option jsstring)
        (tem : value -> string -> jsstring) (body : object) :
  let prompt := lookup "prompt" body in
  exists rep,
    completionOf (post_llama together env tem body) = Normal rep /\
    ((ToBoolean prompt = false /\
      rep = {| status := 500;
               json := VObject [("error", VString MSG_PROMPT_REQUIRED)] |})
     \/
     (ToBoolean prompt = true /\ toStringFaults prompt = true /\
      rep = {| status := 500;
               json := VObject [("error",
                                 VString (tem prompt "toString"))] |})
     \/
     (ToBoolean prompt = true /\ toStringFaults prompt = false /\
      ((status rep = 200%Z /\ exists a, json rep = VObject [("answer", a)])
       \/
       rep = {| status := 500;
                json := VObject [("error",
                                  VString MSG_MODEL_CALL_FAILED)] |}))).
Proof.
  intros prompt. rewrite post_llama_reply. fold prompt.
  eexists. split; [reflexivity|].
  destruct (ToBoolean prompt) eqn:Ht.
  - destruct (toStringFaults prompt) eqn:Hc.
    + right; left. repeat split.
      now rewrite (@chatWithModel_unconvertible together env tem _ _ Ht Hc).
    + right; right. repeat split.
      destruct (completionOf
                  (chatWithModel together env tem (VString AI_MODEL.LLAMA)
                     prompt)) as [a|e] eqn:E.
      * left. split; [reflexivity|now exists a].
      * right.
        now rewrite (@chatWithModel_throws together env tem _ _ e Ht Hc E).
  - left. split; [reflexivity|].
    now rewrite chatWithModel_falsy by exact Ht.
Qed.

(** X12.  POST /deepseek from end to end: when the prompt is truthy and
    can be converted to a string, and the first choice of the provider's payload has, as content, a text
    with a well-formed reasoning segment, the handler makes its one call
    and replies, under the status 200, with the trimmed inner content as
    [think] and the trimmed trailing text as [say]. *)
Theorem X12_deepseek_end_to_end
        (together : call -> outcome) (env : option jsstring)
        (tem : value -> string -> jsstring) (body : object)
        (o ch m : object) (others : list value)
        (pre inner trailing : jsstring)
        (Htruthy : ToBoolean (lookup "prompt" body) = true)
        (Hconv : toStringFaults (lookup "prompt" body) = false)
        (Hres :
           together
             (ChatCompletionsCreate
                (chatBody env (VString AI_MODEL.DEEPSEEK)
                   (lookup "prompt" body))) = Resolves (VObject o))
        (Hchoices : lookup "choices" o = VArray (VObject ch :: others))
        (Hmessage : lookup "message" ch = VObject m)
        (Hcontent :
           lookup "content" m =
           VString (pre ++ THINK_OPEN ++ inner ++ THINK_CLOSE ++ trailing))
        (Hpre : includes THINK_OPEN pre = false)
        (Hinner : includes THINK_CLOSE inner = false) :
  post_deepseek together env tem body =
  (Normal (res_json (VObject [("think", VString (trim inner));
                              ("say", VString (trim trailing))])),
   [ChatCompletionsCreate
      (chatBody env (VString AI_MODEL.DEEPSEEK) (lookup "prompt" body))]).
Proof.
  rewrite (M_eq (post_deepseek _ _ _ _)).
  rewrite post_deepseek_calls, chatWithModel_calls by assumption.
  rewrite post_deepseek_completion.
  rewrite (@chatWithModel_first_choice together env tem _ _ _ _ _ _
             Htruthy Hconv Hres Hchoices Hmessage).
  rewrite Hcontent.
  now rewrite (shapeAnswer_match tem _ _ trailing Hpre Hinner).
Qed.

Lemma X12_witness :
  let raw := lit "<think>2+2</think> 4" in
  let together := Samples.resolving (Samples.chatCompletion (VString raw)) in
  let body := [("prompt", VString (lit "2+2?"))] in
  post_deepseek together None Samples.engineMessage body =
  (Normal (res_json (VObject [("think", VString (lit "2+2"));
                              ("say", VString (lit "4"))])),
   [ChatCompletionsCreate
      (chatBody None (VString AI_MODEL.DEEPSEEK) (VString (lit "2+2?")))]).
Proof.
  intros raw together body.
  exact (X12_deepseek_end_to_end together None Samples.engineMessage body
           (o := [("choices",
                   VArray [VObject
                             [("message",
                               VObject [("content", VString raw)])]])])
           [] (lit "2+2") (lit " 4")
           eq_refl eq_refl eq_refl eq_refl eq_refl eq_refl eq_refl eq_refl).
Defined.
